(** * Averaging detector data with Dask: the notebook's computation

    A shallow embedding of [docs/dask_averaging.ipynb].  The first-party
    code is the function [average_module] and three notebook cells
    (the list comprehension building [mod_averages], the [da.stack] call
    and the timed [compute] call).  Everything those lines call belongs to
    the array libraries (numpy / dask.array), to the data-access library
    (the run handle) and to IPython; these are embedded here following
    their behaviour:

    - a concrete array is a shape, an element type and a C-ordered buffer;
    - a lazy array is the metadata known without computing (shape, element
      type) together with the description of the deferred computation;
    - shape errors are raised when the description is built, with the
      exceptions of dask's [reshape]: it infers the unknown dimension by
      Python's division of the element count, which yields a float, takes
      the other requested dimensions as they are, negative ones too, and
      only requires that the element count is preserved.  (For an array in
      several chunks dask can further refuse to regroup dimensions that do
      not split evenly; this does not occur for the frames of 512 x 128
      pixels the notebook is written for and is left out);
    - a mean reduction casts to the accumulation type, adds along the
      reduced axis and divides by the count; floating point is IEEE-754
      binary32 / binary64 as specified by [SpecFloat].  dask adds chunk by
      chunk and then adds the partial results; into which chunks an array is
      cut is not decided by the notebook, so it is a parameter of the
      embedding, and the properties hold for every choice of it;
    - a cell is a computation that may raise and that may change what has
      been printed and how many graphs have been evaluated; the durations
      the [%%time] magic prints are a parameter as well. *)

From Stdlib Require Import ZArith Lia.
From Stdlib Require Import SpecFloat.
From stdpp Require Import base tactics option list list_numbers strings pretty.

Local Open Scope Z_scope.

(** ** Element types and scalars *)

(** numpy element types that matter here: integers of some signedness and
    bit width (the detector delivers [uint16]) and the two binary floating
    point formats. *)
Inductive dtype :=
  | IntType (signed : bool) (bits : Z)
  | Float32
  | Float64.

Definition uint16 : dtype := IntType false 16.

Global Instance dtype_eq_dec : EqDecision dtype.
Proof. solve_decision. Defined.

(** Precision and exponent bound of the IEEE-754 format accumulating for
    [dt]; an integer request accumulates like numpy's default (binary64). *)
Definition fprec (dt : dtype) : Z :=
  match dt with Float32 => 24 | _ => 53 end.
Definition femax (dt : dtype) : Z :=
  match dt with Float32 => 128 | _ => 1024 end.

Inductive scalar :=
  | SInt (z : Z)
  | SFloat (f : spec_float).

Global Instance scalar_inhabited : Inhabited scalar := populate (SInt 0).

(** Conversion of an integer to the format of [dt], round to nearest even. *)
Definition float_of_Z (dt : dtype) (z : Z) : spec_float :=
  binary_normalize (fprec dt) (femax dt) z 0 false.

(** [astype]: cast a scalar to the floating format of [dt]. *)
Definition cast_float (dt : dtype) (v : scalar) : spec_float :=
  match v with
  | SInt z => float_of_Z dt z
  | SFloat (S754_finite s m e) =>
      binary_normalize (fprec dt) (femax dt) (cond_Zopp s (Z.pos m)) e s
  | SFloat f => f
  end.

Definition fadd (dt : dtype) : spec_float → spec_float → spec_float :=
  SFadd (fprec dt) (femax dt).
Definition fdiv (dt : dtype) : spec_float → spec_float → spec_float :=
  SFdiv (fprec dt) (femax dt).
Definition fzero : spec_float := S754_zero false.

Global Instance spec_float_inhabited : Inhabited spec_float := populate fzero.

Global Instance spec_float_eq_dec : EqDecision spec_float.
Proof. solve_decision. Defined.

(** ** Sums in a given grouping *)

(** Floating-point addition is not associative, so a sum of rows is only
    determined once the grouping of the additions is.  dask reduces an array
    chunk by chunk: the rows of a chunk are added one after the other into
    one accumulator, and the partial results of the chunks are then added to
    each other.  A plan describes this for consecutive rows. *)
Inductive sum_plan :=
  | Chunk (n : nat)           (* the next [n] rows, added in order to [+0] *)
  | Added (l r : sum_plan).   (* the result for the rows of [l], plus the
                                 result for the rows after them, as [r] *)

(** The number of rows a plan adds up. *)
Fixpoint plan_rows (p : sum_plan) : nat :=
  match p with
  | Chunk n => n
  | Added l r => plan_rows l + plan_rows r
  end.

Fixpoint plan_sum {A} (add : A → A → A) (zero : A) (p : sum_plan)
    (rows : list A) : A :=
  match p with
  | Chunk n => fold_left add (take n rows) zero
  | Added l r =>
      add (plan_sum add zero l (take (plan_rows l) rows))
          (plan_sum add zero r (drop (plan_rows l) rows))
  end.

(** The count of the rows is reduced like the rows: every chunk reports its
    number of rows in the accumulation format, and these are added. *)
Fixpoint plan_count (dt : dtype) (p : sum_plan) : spec_float :=
  match p with
  | Chunk n => float_of_Z dt (Z.of_nat n)
  | Added l r => fadd dt (plan_count dt l) (plan_count dt r)
  end.

(** All the rows in one chunk. *)
Definition in_order (n : nat) : sum_plan := Chunk n.

(** The rows cut into consecutive chunks of the given lengths, the partial
    results added one after the other. *)
Definition in_chunks (lens : list nat) : sum_plan :=
  match lens with
  | [] => Chunk 0
  | n :: lens' => fold_left (λ p len, Added p (Chunk len)) lens' (Chunk n)
  end.

(** The mean of a one-dimensional sequence of scalars, accumulated in the
    format of [dt] with the grouping [p]: cast, add, divide by the count
    ([0/0] is NaN, as for an empty numpy mean). *)
Definition mean_by (dt : dtype) (p : sum_plan) (vs : list scalar) : scalar :=
  SFloat (fdiv dt (plan_sum (fadd dt) fzero p (cast_float dt <$> vs))
                  (plan_count dt p)).

(** The same with one accumulator, left to right starting from [+0]. *)
Definition mean_1d (dt : dtype) (vs : list scalar) : scalar :=
  SFloat (fdiv dt (fold_left (fadd dt) (cast_float dt <$> vs) fzero)
                  (float_of_Z dt (Z.of_nat (length vs)))).

(** ** Concrete arrays *)

Record ndarray := NdArray {
  shape : list Z;
  dtype_of : dtype;
  data : list scalar;     (* C order: the last axis varies fastest *)
}.

(** Number of elements of a shape. *)
Definition size (sh : list Z) : Z := foldr Z.mul 1 sh.

Definition ndim (sh : list Z) : Z := Z.of_nat (length sh).

(** Length of the leading axis. *)
Definition leading (sh : list Z) : Z := default 0 (head sh).

(** An array is well formed when no dimension is negative and the buffer
    holds exactly [size shape] elements. *)
Definition wf (a : ndarray) : Prop :=
  Forall (λ d, 0 ≤ d) (shape a) ∧ Z.of_nat (length (data a)) = size (shape a).

(** Flat offset of a multi-index in C order (Horner scheme). *)
Fixpoint ravel_from (acc : Z) (sh idx : list Z) : Z :=
  match sh, idx with
  | d :: sh', i :: idx' => ravel_from (acc * d + i) sh' idx'
  | _, _ => acc
  end.
Definition ravel (sh idx : list Z) : Z := ravel_from 0 sh idx.

Fixpoint in_bounds (sh idx : list Z) : bool :=
  match sh, idx with
  | [], [] => true
  | d :: sh', i :: idx' => (0 <=? i) && (i <? d) && in_bounds sh' idx'
  | _, _ => false
  end.

(** [a[i0, i1, ...]] with one non-negative index per axis; [None] stands for
    numpy's IndexError. *)
Definition item (a : ndarray) (idx : list Z) : option scalar :=
  if in_bounds (shape a) idx
  then data a !! Z.to_nat (ravel (shape a) idx)
  else None.

(** The buffer cut into [count] consecutive rows of [n] elements. *)
Fixpoint chunks {A} (n : nat) (count : nat) (l : list A) : list (list A) :=
  match count with
  | O => []
  | S c => take n l :: chunks n c (drop n l)
  end.

(** Length of the slice [:stop] of an axis of length [d] (Python slicing:
    a negative stop counts from the end, the result is clipped). *)
Definition slice_len (stop d : Z) : Z :=
  if stop <? 0 then Z.max (d + stop) 0 else Z.min stop d.

(** [a[:, :stop]] on an array with at least two axes. *)
Definition nd_getitem_axis1 (stop : Z) (a : ndarray) : ndarray :=
  match shape a with
  | d0 :: d1 :: rest =>
      let inner := size rest in
      let k := slice_len stop d1 in
      {| shape := d0 :: k :: rest;
         dtype_of := dtype_of a;
         data := mjoin (take (Z.to_nat (k * inner)) <$>
                        chunks (Z.to_nat (d1 * inner)) (Z.to_nat d0) (data a)) |}
  | _ => a
  end.

(** [a.reshape(newshape)] once the new shape is resolved: C-order reshape
    keeps the buffer. *)
Definition nd_reshape (newshape : list Z) (a : ndarray) : ndarray :=
  {| shape := newshape; dtype_of := dtype_of a; data := data a |}.

(** Column-wise sum of rows, grouped as [p]. *)
Definition sum_rows (dt : dtype) (p : sum_plan) (n : nat)
    (rows : list (list spec_float)) : list spec_float :=
  plan_sum (zip_with (fadd dt)) (replicate n fzero) p rows.

(** [a.mean(axis=0, dtype=dt)], the sub-arrays along the leading axis being
    added, and counted, in the grouping [p]. *)
Definition nd_mean_axis0 (dt : dtype) (p : sum_plan) (a : ndarray) : ndarray :=
  match shape a with
  | d0 :: rest =>
      let n := Z.to_nat (size rest) in
      let rows := chunks n (Z.to_nat d0) (cast_float dt <$> data a) in
      {| shape := rest;
         dtype_of := dt;
         data := (λ s, SFloat (fdiv dt s (plan_count dt p))) <$>
                 sum_rows dt p n rows |}
  | [] => a
  end.

(** [np.stack(parts)] along a new leading axis. *)
Definition nd_stack (parts : list ndarray) : ndarray :=
  match parts with
  | [] => {| shape := [0]; dtype_of := Float64; data := [] |}
  | p :: _ =>
      {| shape := Z.of_nat (length parts) :: shape p;
         dtype_of := dtype_of p;
         data := mjoin (data <$> parts) |}
  end.

(** [a[i]] for [0 <= i < len(a)]: the [i]-th sub-array along the leading
    axis; [None] stands for IndexError. *)
Definition nd_getitem0 (i : Z) (a : ndarray) : option ndarray :=
  match shape a with
  | d0 :: rest =>
      if (0 <=? i) && (i <? d0) then
        let n := Z.to_nat (size rest) in
        Some {| shape := rest;
                dtype_of := dtype_of a;
                data := take n (drop (Z.to_nat i * n) (data a)) |}
      else None
  | [] => None
  end.

(** ** Lazy arrays *)

(** The description of a deferred computation: the task graph dask keeps
    behind an array.  Nothing is computed when a node is added.  A leaf
    records into which chunks the stored data is cut along the leading
    axis; a mean records the grouping in which it will add. *)
#[warnings="-register-all"] Inductive expr :=
  | FromArray (chunk_lens : list Z) (a : ndarray)  (* data waiting in the files *)
  | GetItemAxis1 (stop : Z) (e : expr)             (* e[:, :stop] *)
  | Reshape (newshape : list Z) (e : expr)         (* e.reshape(newshape) *)
  | MeanAxis0 (dt : dtype) (p : sum_plan) (e : expr) (* e.mean(axis=0, dtype=dt) *)
  | Stack (es : list expr).                        (* da.stack(es) *)

(** A dask array: the shape and element type, known without computing, and
    the graph. *)
Record darray := DArray {
  dshape : list Z;
  ddtype : dtype;
  graph : expr;
}.

(** What evaluating a graph yields. *)
Fixpoint eval (e : expr) : ndarray :=
  match e with
  | FromArray _ a => a
  | GetItemAxis1 stop e' => nd_getitem_axis1 stop (eval e')
  | Reshape sh e' => nd_reshape sh (eval e')
  | MeanAxis0 dt p e' => nd_mean_axis0 dt p (eval e')
  | Stack es => nd_stack (eval <$> es)
  end.

(** The metadata of a lazy array tells the truth about its value. *)
Definition valid (x : darray) : Prop :=
  wf (eval (graph x)) ∧
  shape (eval (graph x)) = dshape x ∧
  dtype_of (eval (graph x)) = ddtype x.

(** ** Exceptions, console and the notebook monad *)

Inductive exn :=
  | SourceNameError (source : string)
  | PropertyNameError (key source : string)
  | TooManyIndices                     (* IndexError: Too many indices for array *)
  | BadIndex (q : spec_float)          (* IndexError: Bad index.  Must be
                                          integer-like: q *)
  | ZeroDivisionError                  (* division by zero *)
  | OverflowError                      (* integer division result too large
                                          for a float *)
  | OneUnknownDimension                (* ValueError: can only specify one
                                          unknown dimension *)
  | TotalSizeChanged                   (* ValueError: total size of new array
                                          must be unchanged *)
  | AxisError (axis nd : Z)
  | NeedArraysToStack                             (* ValueError *)
  | StackShapeMismatch (sh1 sh2 : list Z).        (* ValueError *)

(** What a notebook cell can observe or change: the lines printed so far
    (oldest first) and how many graphs have been evaluated. *)
Record state := State {
  console : list string;
  evaluations : nat;
}.

Definition M (A : Type) : Type := state → (exn + A) * state.

Global Instance M_ret : MRet M := λ A x s, (inr x, s).
Global Instance M_bind : MBind M := λ A B f m s,
  match m s with
  | (inl e, s') => (inl e, s')
  | (inr x, s') => f x s'
  end.

(** A call that either raises or returns, without touching the state. *)
Definition lift {A} (r : exn + A) : M A := λ s, (r, s).

Definition print (line : string) : M () := λ s,
  (inr (), {| console := console s ++ [line]; evaluations := evaluations s |}).

(** [repr] of a tuple of integers, as [print] shows a shape. *)
Fixpoint repr_items (l : list Z) : string :=
  match l with
  | [] => ""
  | [x] => pretty x
  | x :: l' => pretty x +:+ ", " +:+ repr_items l'
  end.
Definition repr_tuple (l : list Z) : string :=
  match l with
  | [x] => "(" +:+ pretty x +:+ ",)"
  | _ => "(" +:+ repr_items l +:+ ")"
  end.

(** ** Python's division of integers *)

(** The integer nearest to [num / den], ties to the even one
    ([0 <= num], [0 < den]). *)
Definition rne_div (num den : Z) : Z :=
  let q := num / den in
  let r := num mod den in
  if 2 * r <? den then q
  else if den <? 2 * r then q + 1
  else if Z.even q then q else q + 1.

(** The exponent [e] with [2^e <= a / b < 2^(e+1)], for positive [a], [b]. *)
Definition quotient_exponent (a b : Z) : Z :=
  if b <=? a then Z.log2 (a / b) else - Z.log2_up ((b + a - 1) / a).

(** [a / b] on Python integers: the binary64 number nearest to the exact
    quotient (ties to even; 53 bits, fewer below [2^-1022]), whatever the
    size of [a] and [b]. *)
Definition true_divide (a b : Z) : exn + spec_float :=
  if b =? 0 then inl ZeroDivisionError else
  let s := xorb (a <? 0) (b <? 0) in
  let a' := Z.abs a in
  let b' := Z.abs b in
  if a' =? 0 then inr (S754_zero s) else
  let k := Z.max (quotient_exponent a' b' - 52) (-1074) in
  let m := if 0 <=? k then rne_div a' (b' * 2 ^ k)
           else rne_div (a' * 2 ^ (- k)) b' in
  let '(m, k) := if m =? 2 ^ 53 then (2 ^ 52, k + 1) else (m, k) in
  if 971 <? k then inl OverflowError
  else match m with
       | Z.pos p => inr (S754_finite s p k)
       | _ => inr (S754_zero s)
       end.

(** The integer a float is, if it is one. *)
Definition float_to_int (q : spec_float) : option Z :=
  match q with
  | S754_zero _ => Some 0
  | S754_finite s m e =>
      if 0 <=? e then Some (cond_Zopp s (Z.pos m * 2 ^ e))
      else if Z.pos m mod 2 ^ (- e) =? 0
           then Some (cond_Zopp s (Z.pos m / 2 ^ (- e)))
           else None
  | _ => None
  end.

(** dask's [sanitize_index] on a float: [int(q)] if that equals [q]
    (a division of integers yields no infinity and no NaN). *)
Definition sanitize_index (q : spec_float) : exn + Z :=
  match float_to_int q with
  | Some n => inr n
  | None => inl (BadIndex q)
  end.

(** ** Building lazy arrays *)

(** A lazy array over stored data cut into the given chunks, and over data
    in one chunk. *)
Definition da_from_chunks (chunk_lens : list Z) (a : ndarray) : darray :=
  {| dshape := shape a; ddtype := dtype_of a; graph := FromArray chunk_lens a |}.
Definition da_from_array (a : ndarray) : darray :=
  da_from_chunks [leading (shape a)] a.

(** [x[:, :stop]] *)
Definition da_getitem_axis1 (stop : Z) (x : darray) : exn + darray :=
  match dshape x with
  | d0 :: d1 :: rest =>
      inr {| dshape := d0 :: slice_len stop d1 :: rest;
             ddtype := ddtype x;
             graph := GetItemAxis1 stop (graph x) |}
  | _ => inl TooManyIndices
  end.

(** Resolution of a requested shape against an array of [sz] elements, as
    dask's [reshape] does it: the entries other than [-1] are taken as they
    are; one entry [-1] is replaced by the quotient of [sz] by the product
    of the others, divided as floats; the element count must be
    preserved. *)
Definition resolve_shape (sz : Z) (req : list Z) : exn + list Z :=
  let known_sizes := filter (λ d, d ≠ -1) req in
  let resolved :=
    if decide (length known_sizes < length req)%nat then
      if decide (1 < length req - length known_sizes)%nat
      then inl OneUnknownDimension
      else match true_divide sz (size known_sizes) with
           | inl e => inl e
           | inr q =>
               match sanitize_index q with
               | inl e => inl e
               | inr missing_size =>
                   inr ((λ d, if d =? -1 then missing_size else d) <$> req)
               end
           end
    else inr req in
  match resolved with
  | inl e => inl e
  | inr sh => if size sh =? sz then inr sh else inl TotalSizeChanged
  end.

(** [x.reshape(d0, d1, ...)] with the requested dimensions [req];
    [x.reshape(-1)] on a one-dimensional array is [x]. *)
Definition da_reshape (req : list Z) (x : darray) : exn + darray :=
  if decide (req = [-1] ∧ length (dshape x) = 1%nat) then inr x else
  match resolve_shape (size (dshape x)) req with
  | inr sh =>
      inr {| dshape := sh; ddtype := ddtype x; graph := Reshape sh (graph x) |}
  | inl e => inl e
  end.

(** What the notebook does not decide: into which chunks dask has the
    sub-arrays along the leading axis of a lazy array when it reduces it, and
    in which grouping it adds the partial results (every sub-array is added
    exactly once, in order); and the durations the [%%time] magic reports
    for a cell. *)
Class Session := {
  mean_plan : darray → sum_plan;
  mean_plan_rows x : plan_rows (mean_plan x) = Z.to_nat (leading (dshape x));
  cpu_times : state → string;
  wall_time : state → string;
}.

(** [x.mean(axis=0, dtype=dt)] *)
Definition da_mean_axis0 `{!Session} (dt : dtype) (x : darray) : exn + darray :=
  match dshape x with
  | d0 :: rest =>
      inr {| dshape := rest;
             ddtype := dt;
             graph := MeanAxis0 dt (mean_plan x) (graph x) |}
  | [] => inl (AxisError 0 0)
  end.

(** [da.stack(xs)]: the parts must have one shape (and, in this notebook,
    have one element type, which the result takes). *)
Definition da_stack (xs : list darray) : exn + darray :=
  match xs with
  | [] => inl NeedArraysToStack
  | x :: _ =>
      match list_find (λ y, dshape y ≠ dshape x) xs with
      | Some (_, y) => inl (StackShapeMismatch (dshape x) (dshape y))
      | None =>
          inr {| dshape := Z.of_nat (length xs) :: dshape x;
                 ddtype := ddtype x;
                 graph := Stack (graph <$> xs) |}
      end
  end.

(** [x.compute()]: evaluate the graph; the graph itself is not changed. *)
Definition compute (x : darray) : M ndarray := λ s,
  (inr (eval (graph x)),
   {| console := console s; evaluations := S (evaluations s) |}).

(** A cell under the [%%time] magic: when the body has run without raising,
    two lines report the durations measured. *)
Definition timed `{!Session} {A} (body : M A) : M A := λ s,
  match body s with
  | (inr x, s') =>
      (inr x,
       {| console := console s' ++ ["CPU times: " +:+ cpu_times s;
                                    "Wall time: " +:+ wall_time s];
          evaluations := evaluations s' |})
  | (inl e, s') => (inl e, s')
  end.

(** ** The run handle *)

(** What the notebook uses of an opened run: per-train frame counts and a
    lazy array, both looked up by source and key. *)
Record Run := {
  get_data_counts : string → string → exn + list (Z * Z);
  get_dask_array : string → string → exn + darray;
}.

(** ** The notebook's code *)

Definition module_source (modno : Z) : string :=
  "SPB_DET_AGIPD1M-1/DET/" +:+ pretty modno +:+ "CH0:xtdf".

Definition average_module `{!Session} (modno : Z) (run : Run)
    (pulses_per_train : Z) : M darray :=
  let source := module_source modno in
  counts ← lift (get_data_counts run source "image.data");
  raw ← lift (get_dask_array run source "image.data");
  arr ← lift (da_getitem_axis1 1 raw);
  (* Make a new dimension for trains *)
  arr_trains ← lift (da_reshape [-1; pulses_per_train; 512; 128] arr);
  (if bool_decide (modno = 0) then
     print ("array shape: " +:+ repr_tuple (dshape arr));;
     print ("Reshaped to: " +:+ repr_tuple (dshape arr_trains))
   else mret ());;
  lift (da_mean_axis0 Float32 arr_trains).

(** Default of the keyword argument. *)
Definition default_pulses_per_train : Z := 64.

(** [[f(i) for i in range(n)]] *)
Fixpoint for_each {A} (f : Z → M A) (idxs : list Z) : M (list A) :=
  match idxs with
  | [] => mret []
  | i :: idxs' => x ← f i; xs ← for_each f idxs'; mret (x :: xs)
  end.
Definition range (n : Z) : list Z := seqZ 0 n.

Definition mod_averages `{!Session} (run : Run) : M (list darray) :=
  for_each (λ i, average_module i run 64) (range 16).

(** The same two cells for other module numbers and pulse counts, as a test
    of the computation on synthetic data runs them. *)
Definition stacked_averages `{!Session} (run : Run) (pulses_per_train : Z)
    (mods : list Z) : M darray :=
  parts ← for_each (λ i, average_module i run pulses_per_train) mods;
  lift (da_stack parts).

Definition all_average `{!Session} (run : Run) : M darray :=
  parts ← mod_averages run;
  lift (da_stack parts).

(** The cell [%%time] / [all_average_arr = all_average.compute()], run after
    the cells above. *)
Definition all_average_arr `{!Session} (run : Run) : M ndarray :=
  lazy_result ← all_average run;
  timed (compute lazy_result).

(** ** Notions used to state the properties *)

(** The values reduced into position [j] of a mean over the leading axis of
    an array of shape [d0 :: rest]: offset [j] of every sub-array along that
    axis, in index order. *)
Definition reduced_column (a : ndarray) (d0 : Z) (rest : list Z) (j : Z)
  : list scalar :=
  (λ t, data a !!! Z.to_nat (t * size rest + j)) <$> seqZ 0 d0.

(** The values a pixel takes at pulse [p] of every train, in train order:
    [raw[t * ppt + p, 0, r, c] for t in range(trains)]. *)
Definition pulse_values (a : ndarray) (ppt trains p r c : Z)
  : option (list scalar) :=
  mapM (λ t, item a [t * ppt + p; 0; r; c]) (seqZ 0 trains).

(** Number of pixels of one module image (512 rows of 128 columns). *)
Definition frame_pixels : Z := 512 * 128.

(** The number of trains the reshape of [average_module] infers for an array
    of [sz] elements, or what it raises. *)
Definition infer_trains (sz ppt : Z) : exn + Z :=
  if decide (ppt = -1) then inl OneUnknownDimension else
  match true_divide sz (ppt * frame_pixels) with
  | inl e => inl e
  | inr q =>
      match float_to_int q with
      | None => inl (BadIndex q)
      | Some trains =>
          if trains * (ppt * frame_pixels) =? sz then inr trains
          else inl TotalSizeChanged
      end
  end.

(** The errors the reshape of [average_module] can raise. *)
Definition reshape_error (e : exn) : Prop :=
  match e with
  | BadIndex _ | ZeroDivisionError | OverflowError
  | OneUnknownDimension | TotalSizeChanged => True
  | _ => False
  end.

(** The array the mean is taken of in a successful call: the run's array,
    sliced and reshaped to one leading index per train. *)
Definition by_trains (ppt trains : Z) (raw : darray) : darray :=
  {| dshape := [trains; ppt; 512; 128];
     ddtype := ddtype raw;
     graph := Reshape [trains; ppt; 512; 128] (GetItemAxis1 1 (graph raw)) |}.

(** The lazy result of a successful call. *)
Definition averaged `{!Session} (ppt trains : Z) (raw : darray) : darray :=
  {| dshape := [ppt; 512; 128];
     ddtype := Float32;
     graph := MeanAxis0 Float32 (mean_plan (by_trains ppt trains raw))
                (Reshape [trains; ppt; 512; 128] (GetItemAxis1 1 (graph raw))) |}.

(** The state after a successful call: only module 0 reports the two
    shapes. *)
Definition reported (modno : Z) (arr_shape trains_shape : list Z) (s : state)
  : state :=
  if bool_decide (modno = 0) then
    {| console := console s ++ ["array shape: " +:+ repr_tuple arr_shape;
                                "Reshaped to: " +:+ repr_tuple trains_shape];
       evaluations := evaluations s |}
  else s.

(** The state after a cell under [%%time] that started in [s] and whose
    body left [s']. *)
Definition timing_reported `{!Session} (s s' : state) : state :=
  {| console := console s' ++ ["CPU times: " +:+ cpu_times s;
                               "Wall time: " +:+ wall_time s];
     evaluations := evaluations s' |}.

(** A run is ready for module [i] when it knows the module's source and
    delivers frames of 512 x 128 pixels in whole trains of [ppt] pulses
    (and no more than [2^53] frames, a count that floats still tell
    apart). *)
Definition module_ready (run : Run) (ppt : Z) (i : Z) : Prop :=
  ∃ counts raw frames d1,
    get_data_counts run (module_source i) "image.data" = inr counts ∧
    get_dask_array run (module_source i) "image.data" = inr raw ∧
    dshape raw = [frames; d1; 512; 128] ∧
    1 ≤ d1 ∧ (ppt | frames) ∧ 0 ≤ frames ≤ 2 ^ 53.

(** Every lazy array a run hands out has truthful metadata. *)
Definition run_valid (run : Run) : Prop :=
  ∀ src key raw, get_dask_array run src key = inr raw → valid raw.

(** The sum of a list of integers. *)
Definition total (zs : list Z) : Z := foldr Z.add 0 zs.

(** The buffer of an array has the length its shape tells (a weaker notion
    than [wf], met also by the arrays of negative shape dask lets through). *)
Definition sized (a : ndarray) : Prop :=
  length (data a) = Z.to_nat (size (shape a)).

(** ** Synthetic inputs *)

(** Frames of one module, each filled with one value: frame [k] holds
    [vals[k]] at each of its [512 x 128] pixels; the placeholder axis has
    width 1. *)
Definition filled_frames (vals : list Z) : ndarray :=
  {| shape := [Z.of_nat (length vals); 1; 512; 128];
     dtype_of := uint16;
     data := mjoin ((λ v, replicate (Z.to_nat frame_pixels) (SInt v)) <$> vals) |}.

(** [np.full(sh, v)]: an array of shape [sh] holding [v] everywhere. *)
Definition full (sh : list Z) (v : Z) : ndarray :=
  {| shape := sh;
     dtype_of := uint16;
     data := replicate (Z.to_nat (size sh)) (SInt v) |}.

(** An array given by its shape and buffer, whatever its geometry. *)
Definition int_array (sh : list Z) (vals : list Z) : ndarray :=
  {| shape := sh; dtype_of := uint16; data := SInt <$> vals |}.

(** [frames] frames of 512 x 128 pixels with a placeholder axis as wide as
    [vals] is long: at index [k] of that axis every pixel of every frame
    holds [vals[k]]. *)
Definition layered_frames (frames : nat) (vals : list Z) : ndarray :=
  {| shape := [Z.of_nat frames; Z.of_nat (length vals); 512; 128];
     dtype_of := uint16;
     data := mjoin (replicate frames
               (mjoin ((λ v, replicate (Z.to_nat frame_pixels) (SInt v))
                       <$> vals))) |}.

(** A run holding the given modules, numbered from [i]: the source of module
    [i + k] delivers [mods[k]]; every train recorded [per_train] frames. *)
Fixpoint lookup_module (src : string) (i : Z) (mods : list ndarray)
  : option ndarray :=
  match mods with
  | [] => None
  | a :: mods' =>
      if decide (module_source i = src) then Some a
      else lookup_module src (i + 1) mods'
  end.

Definition train_counts (per_train : Z) (a : ndarray) : list (Z * Z) :=
  match shape a with
  | frames :: _ => (λ t, (10000 + t, per_train)) <$> seqZ 0 (frames / per_train)
  | [] => []
  end.

Definition run_of_modules (per_train : Z) (mods : list ndarray) : Run :=
  {| get_data_counts src key :=
       match lookup_module src 0 mods with
       | Some a =>
           if decide (key = "image.data") then inr (train_counts per_train a)
           else inl (PropertyNameError key src)
       | None => inl (SourceNameError src)
       end;
     get_dask_array src key :=
       match lookup_module src 0 mods with
       | Some a =>
           if decide (key = "image.data") then inr (da_from_array a)
           else inl (PropertyNameError key src)
       | None => inl (SourceNameError src)
       end |}.

(** The same data seen through a run whose frame counts are all replaced. *)
Definition with_counts (counts : list (Z * Z)) (run : Run) : Run :=
  {| get_data_counts src key :=
       match get_data_counts run src key with
       | inr _ => inr counts
       | inl e => inl e
       end;
     get_dask_array := get_dask_array run |}.

Definition start : state := {| console := []; evaluations := 0 |}.

(** What a cell returned, if it did not raise. *)
Definition returned {A} (r : (exn + A) * state) : option A :=
  match fst r with inr x => Some x | inl _ => None end.

(** The metadata a lazy array displays. *)
Definition shown (x : darray) : list Z * dtype := (dshape x, ddtype x).

(** Two modules, four trains of two pulses, images of one pixel: module 0
    holds 1..8 and module 1 holds 9..16. *)
Definition one_pixel_run : Run :=
  run_of_modules 2 [int_array [8; 1; 1; 1] (seqZ 1 8);
                    int_array [8; 1; 1; 1] (seqZ 9 8)].

(** The same values on images of 512 x 128 pixels: frame [k] of module 0 is
    filled with [k + 1], frame [k] of module 1 with [k + 9]. *)
Definition scenario_run : Run :=
  run_of_modules 2 [filled_frames (seqZ 1 8); filled_frames (seqZ 9 8)].

(** One module, two trains of two pulses, images of 2 x 3 pixels. *)
Definition small_image_run : Run :=
  run_of_modules 2 [int_array [4; 1; 2; 3] (seqZ 1 24)].

(** One module delivering three frames of 1024 x 128 pixels. *)
Definition tall_image_run : Run :=
  run_of_modules 2 [full [3; 1; 1024; 128] 7].

(** One module, two trains of one pulse, frames filled with 5 and 7. *)
Definition two_frame_run : Run :=
  run_of_modules 1 [filled_frames [5; 7]].

(** One module, three frames filled with 1, 2 and 3. *)
Definition three_frame_run : Run :=
  run_of_modules 2 [filled_frames [1; 2; 3]].

(** One module, three trains of one pulse, frames filled with 1, 1 and 2. *)
Definition thirds_run : Run :=
  run_of_modules 1 [filled_frames [1; 1; 2]].

(** One module of [2^53 + 1] frames, all zero. *)
Definition endless_run : Run :=
  run_of_modules 1 [full [2 ^ 53 + 1; 1; 512; 128] 0].

(** binary32 value of an integer, as an array element. *)
Definition f32 (z : Z) : scalar := SFloat (float_of_Z Float32 z).

(** What the scenario is to produce for its two modules, and stacked. *)
Definition scenario_average `{!Session} (first : Z) : darray :=
  averaged 2 4 (da_from_array (filled_frames (seqZ first 8))).
Definition scenario_stacked `{!Session} : darray :=
  {| dshape := [2; 2; 512; 128];
     ddtype := Float32;
     graph := Stack [graph (scenario_average 1); graph (scenario_average 9)] |}.

(** The run of the notebook, as far as its recorded output tells: sixteen
    modules of 191872 frames with a placeholder axis of width 2. *)
Definition recorded_run : Run :=
  run_of_modules 64 (replicate 16 (full [191872; 2; 512; 128] 0)).

(** What the cells make of the recorded run. *)
Definition recorded_average `{!Session} : darray :=
  averaged 64 2998 (da_from_array (full [191872; 2; 512; 128] 0)).
Definition recorded_parts `{!Session} : list darray :=
  replicate 16 recorded_average.
Definition recorded_stacked `{!Session} : darray :=
  {| dshape := [16; 64; 512; 128];
     ddtype := Float32;
     graph := Stack (graph <$> recorded_parts) |}.
Definition recorded_state : state :=
  {| console := ["array shape: (191872, 1, 512, 128)";
                 "Reshaped to: (2998, 64, 512, 128)"];
     evaluations := 0 |}.

(** ** The corner shown by the last cell *)

(** [a[:stop]]: the leading sub-arrays before [stop]. *)
Definition nd_head (stop : Z) (a : ndarray) : ndarray :=
  match shape a with
  | d0 :: rest =>
      {| shape := slice_len stop d0 :: rest;
         dtype_of := dtype_of a;
         data := take (Z.to_nat (slice_len stop d0 * size rest)) (data a) |}
  | [] => a
  end.

(** [a[i0, i1, :rows, :cols]], taken one index at a time; [None] stands for
    IndexError. *)
Definition nd_corner (i0 i1 rows cols : Z) (a : ndarray) : option ndarray :=
  plane ← nd_getitem0 i0 a;
  image ← nd_getitem0 i1 plane;
  match shape image with
  | _ :: _ :: _ => Some (nd_getitem_axis1 cols (nd_head rows image))
  | _ => None
  end.

(** The array cell 18 prints: [all_average_arr[0, 0, :5, :5]]. *)
Definition printed_corner (all_average_arr : ndarray) : option ndarray :=
  nd_corner 0 0 5 5 all_average_arr.

(** ** More synthetic inputs *)

(** A run whose frame counts cannot be read although its arrays can. *)
Definition without_counts (e : exn) (run : Run) : Run :=
  {| get_data_counts src key := inl e;
     get_dask_array := get_dask_array run |}.

(** One module without any frame. *)
Definition no_frame_run : Run :=
  run_of_modules 64 [full [0; 2; 512; 128] 0].

(** One module with two frames whose placeholder axis has width 3: index 0
    holds 7, the indices 1 and 2 hold 1 and 2. *)
Definition wide_axis_run : Run :=
  run_of_modules 1 [layered_frames 2 [7; 1; 2]].

(** Two frames holding 7, with a placeholder axis of width 1. *)
Definition narrow_axis_run : Run :=
  run_of_modules 1 [full [2; 1; 512; 128] 7].

(** The recorded run with the modules 1..15 replaced by one train of frames
    holding 9, and what the cells make of it. *)
Definition replaced_run : Run :=
  run_of_modules 64 (full [191872; 2; 512; 128] 0
                     :: replicate 15 (full [64; 1; 512; 128] 9)).
Definition replaced_stacked `{!Session} : darray :=
  {| dshape := [16; 64; 512; 128];
     ddtype := Float32;
     graph := Stack (graph <$>
                     recorded_average
                     :: replicate 15 (averaged 64 1 (da_from_array
                                        (full [64; 1; 512; 128] 9)))) |}.

(** A session in which every array is reduced as one chunk, its sub-arrays
    added in order, and in which the timed cell reports what the notebook
    recorded. *)
Definition plain_session : Session.
Proof.
  refine {| mean_plan x := in_order (Z.to_nat (leading (dshape x)));
            cpu_times _ := "user 16.2 s, sys: 1.24 s, total: 17.4 s";
            wall_time _ := "1min 37s" |}.
  intros x. reflexivity.
Defined.

#[local] Existing Instance plain_session.

(** * Properties *)

(** ** Buffers cut into rows *)

Section rows.
Context {A : Type}.
Implicit Types (l : list A) (ls : list (list A)) (n c i j : nat).

Lemma length_chunks n c l : length (chunks n c l) = c.
Proof. revert l. induction c as [|c IH]; intros l; simpl; [done|]. by rewrite IH. Qed.

Lemma chunks_lookup n c l i :
  (i < c)%nat → chunks n c l !! i = Some (take n (drop (i * n) l)).
Proof.
  revert l i. induction c as [|c IH]; intros l i Hi; [lia|].
  destruct i as [|i]; simpl; [done|].
  rewrite IH by lia. by rewrite drop_drop.
Qed.

Lemma chunks_same_length n c l :
  (c * n ≤ length l)%nat → Forall (λ r, length r = n) (chunks n c l).
Proof.
  revert l. induction c as [|c IH]; intros l Hl; simpl; constructor.
  - rewrite length_take. lia.
  - apply IH. rewrite length_drop. lia.
Qed.

Lemma lookup_in_row n l i j :
  (j < n)%nat → take n (drop (i * n) l) !! j = l !! (i * n + j)%nat.
Proof. intros Hj. by rewrite lookup_take_lt, lookup_drop by done. Qed.

(** Reading the concatenation of rows of one length. *)
Lemma lookup_join_rows n ls i j :
  Forall (λ r, length r = n) ls → (j < n)%nat →
  mjoin ls !! (i * n + j)%nat = ls !! i ≫= (.!! j).
Proof.
  intros Hls Hj. revert i. induction Hls as [|r ls Hr _ IH]; intros i; [done|].
  destruct i as [|i]; simpl.
  - by rewrite lookup_app_l by lia.
  - rewrite lookup_app_r by lia.
    replace (n + i * n + j - length r)%nat with (i * n + j)%nat by lia.
    apply IH.
Qed.

Lemma length_join_rows n ls :
  Forall (λ r, length r = n) ls → length (mjoin ls) = (length ls * n)%nat.
Proof. intros Hls. rewrite length_join. by apply sum_list_fmap_same. Qed.

(** The [j]-th column of the rows is a strided read of the buffer. *)
Lemma chunks_column `{!Inhabited A} n c l j :
  (j < n)%nat →
  (.!!! j) <$> chunks n c l = (λ t, l !!! (t * n + j)%nat) <$> seq 0 c.
Proof.
  intros Hj. apply list_eq; intros t.
  rewrite !list_lookup_fmap.
  destruct (decide (t < c)%nat) as [Ht|Ht].
  - rewrite chunks_lookup, lookup_seq_lt by done; simpl.
    by rewrite !list_lookup_total_alt, lookup_in_row.
  - rewrite (lookup_ge_None_2 (chunks n c l)) by (rewrite length_chunks; lia).
    by rewrite lookup_seq_ge by lia.
Qed.
End rows.

(** ** Grouped sums *)

(** Accumulating rows column by column is accumulating each column. *)
Lemma lookup_fold_zip_with {A} `{!Inhabited A} (f : A → A → A) n
    (rows : list (list A)) (acc : list A) (j : nat) :
  Forall (λ r, length r = n) rows → length acc = n → (j < n)%nat →
  fold_left (zip_with f) rows acc !! j
  = Some (fold_left f ((.!!! j) <$> rows) (acc !!! j)).
Proof.
  intros Hrows. revert acc.
  induction Hrows as [|r rows Hr _ IH]; intros acc Hacc Hj; simpl.
  - by apply list_lookup_lookup_total_lt; lia.
  - rewrite IH; [|rewrite length_zip_with; lia|done].
    do 2 f_equal. rewrite !list_lookup_total_alt, lookup_zip_with.
    destruct (lookup_lt_is_Some_2 acc j) as [x ->]; [lia|].
    by destruct (lookup_lt_is_Some_2 r j) as [y ->]; [lia|].
Qed.

Lemma length_fold_zip_with {A} (f : A → A → A) n
    (rows : list (list A)) (acc : list A) :
  Forall (λ r, length r = n) rows → length acc = n →
  length (fold_left (zip_with f) rows acc) = n.
Proof.
  intros Hrows. revert acc.
  induction Hrows as [|r rows Hr _ IH]; intros acc Hacc; simpl; [done|].
  apply IH. rewrite length_zip_with. lia.
Qed.

(** One chunk adds like a fold from the left, and counts its rows. *)
Lemma plan_sum_in_order {A} (add : A → A → A) (zero : A) (l : list A) :
  plan_sum add zero (in_order (length l)) l = fold_left add l zero.
Proof. simpl. by rewrite take_ge by lia. Qed.

Lemma mean_by_in_order dt vs :
  mean_by dt (in_order (length vs)) vs = mean_1d dt vs.
Proof.
  unfold mean_by, mean_1d.
  by rewrite <-(plan_sum_in_order (fadd dt) fzero), length_fmap.
Qed.

(** A plan without rows adds nothing to [+0] and counts [+0]. *)
Lemma plan_sum_no_rows dt p rows :
  plan_rows p = 0%nat → plan_sum (fadd dt) fzero p rows = fzero.
Proof.
  revert rows. induction p as [n|l IHl r IHr]; intros rows Hp; simpl in *.
  - by subst n.
  - rewrite IHl, IHr by lia. by destruct dt.
Qed.

Lemma plan_count_no_rows dt p :
  plan_rows p = 0%nat → plan_count dt p = fzero.
Proof.
  induction p as [n|l IHl r IHr]; intros Hp; simpl in *.
  - subst n. by destruct dt.
  - rewrite IHl, IHr by lia. by destruct dt.
Qed.

(** Summing rows column by column is summing each column. *)
Lemma length_plan_sum {A} (f : A → A → A) (z : A) n p (rows : list (list A)) :
  Forall (λ r, length r = n) rows →
  length (plan_sum (zip_with f) (replicate n z) p rows) = n.
Proof.
  revert rows. induction p as [k|l IHl r IHr]; intros rows Hrows; simpl.
  - apply length_fold_zip_with; [by apply Forall_take|apply length_replicate].
  - rewrite length_zip_with, IHl, IHr; [lia|by apply Forall_drop|by apply Forall_take].
Qed.

Lemma lookup_plan_sum {A} `{!Inhabited A} (f : A → A → A) (z : A) n p
    (rows : list (list A)) (j : nat) :
  Forall (λ r, length r = n) rows → (j < n)%nat →
  plan_sum (zip_with f) (replicate n z) p rows !! j
  = Some (plan_sum f z p ((.!!! j) <$> rows)).
Proof.
  intros Hrows Hj. revert rows Hrows.
  induction p as [k|l IHl r IHr]; intros rows Hrows; simpl.
  - rewrite (lookup_fold_zip_with _ n);
      [|by apply Forall_take|apply length_replicate|done].
    by rewrite lookup_total_replicate_2, fmap_take by done.
  - rewrite lookup_zip_with, IHl, IHr; [|by apply Forall_drop|by apply Forall_take].
    simpl. by rewrite fmap_take, fmap_drop.
Qed.

(** ** Division of integers as floats *)

Lemma rne_div_exact x d : 0 < d → rne_div (x * d) d = x.
Proof.
  intros Hd. unfold rne_div.
  rewrite Z.div_mul, Z.mod_mul by lia.
  destruct (Z.ltb_spec (2 * 0) d); [done|lia].
Qed.

Lemma rne_div_close num d :
  0 < d → 2 * Z.abs (num - rne_div num d * d) ≤ d.
Proof.
  intros Hd. unfold rne_div.
  pose proof (Z.div_mod num d ltac:(lia)) as Hdm.
  pose proof (Z.mod_pos_bound num d Hd) as Hr.
  destruct (Z.ltb_spec (2 * (num mod d)) d); [nia|].
  destruct (Z.ltb_spec d (2 * (num mod d))); [nia|].
  destruct (Z.even (num / d)); nia.
Qed.

Lemma rne_div_lower num d : 0 < d → num / d ≤ rne_div num d.
Proof.
  intros Hd. unfold rne_div.
  destruct (_ <? _); [lia|]. destruct (_ <? _); [lia|].
  destruct (Z.even _); lia.
Qed.

Lemma cond_Zopp_sign (n b : Z) :
  b ≠ 0 → cond_Zopp (xorb (n * b <? 0) (b <? 0)) (Z.abs n) = n.
Proof.
  intros Hb.
  destruct (Z.ltb_spec (n * b) 0), (Z.ltb_spec b 0); simpl; nia.
Qed.

(** An exact quotient of at most 53 bits is returned as it is. *)
Lemma true_divide_exact n b :
  b ≠ 0 → Z.abs n ≤ 2 ^ 53 →
  ∃ q, true_divide (n * b) b = inr q ∧ float_to_int q = Some n.
Proof.
  intros Hb Hn. unfold true_divide.
  destruct (Z.eqb_spec b 0) as [|_]; [done|].
  destruct (Z.eqb_spec (Z.abs (n * b)) 0) as [H0|H0].
  { eexists. split; [done|]. simpl. f_equal. nia. }
  assert (0 < Z.abs n) as Hpos by nia.
  assert (0 < Z.abs b) as HB by lia.
  rewrite Z.abs_mul.
  assert (quotient_exponent (Z.abs n * Z.abs b) (Z.abs b) = Z.log2 (Z.abs n)) as ->.
  { unfold quotient_exponent.
    destruct (Z.leb_spec (Z.abs b) (Z.abs n * Z.abs b)); [|nia].
    by rewrite Z.div_mul by lia. }
  pose proof (Z.log2_spec (Z.abs n) Hpos) as [Hlo Hhi].
  pose proof (Z.log2_nonneg (Z.abs n)) as He0.
  assert (Z.log2 (Z.abs n) ≤ 53) as He.
  { apply Z.log2_le_mono in Hn. by rewrite Z.log2_pow2 in Hn. }
  set (e := Z.log2 (Z.abs n)) in *.
  rewrite Z.max_l by lia.
  destruct (Z.leb_spec 0 (e - 52)) as [Hk|Hk].
  - (* the quotient has 53 or 54 bits *)
    replace (Z.abs n * Z.abs b) with (Z.abs n / 2 ^ (e - 52) * (Z.abs b * 2 ^ (e - 52))).
    2:{ assert (e = 52 ∨ e = 53) as [->| ->] by lia.
        - change (2 ^ (52 - 52)) with 1. rewrite Z.div_1_r. lia.
        - change (2 ^ (53 - 52)) with 2.
          assert (Z.abs n = 2 ^ 53) as -> by (change (2 ^ (53 + 1)) with (2 ^ 53 * 2) in Hhi; lia).
          change (2 ^ 53 / 2) with (2 ^ 52). lia. }
    rewrite rne_div_exact by (assert (0 < 2 ^ (e - 52)) by (apply Z.pow_pos_nonneg; lia); nia).
    assert (0 < 2 ^ (e - 52)) as Hp by (apply Z.pow_pos_nonneg; lia).
    assert (2 ^ 52 ≤ Z.abs n / 2 ^ (e - 52) < 2 ^ 53 ∧
            Z.abs n / 2 ^ (e - 52) * 2 ^ (e - 52) = Z.abs n) as [Hm Hv].
    { assert (e = 52 ∨ e = 53) as [He'|He'] by lia; rewrite He' in *.
      - change (2 ^ (52 - 52)) with 1. rewrite Z.div_1_r.
        change (2 ^ (52 + 1)) with (2 ^ 53) in Hhi. lia.
      - change (2 ^ (53 - 52)) with 2.
        assert (Z.abs n = 2 ^ 53) as -> by (change (2 ^ (53 + 1)) with (2 ^ 53 * 2) in Hhi; lia).
        change (2 ^ 53 / 2) with (2 ^ 52). lia. }
    destruct (Z.eqb_spec (Z.abs n / 2 ^ (e - 52)) (2 ^ 53)); [lia|].
    destruct (Z.ltb_spec 971 (e - 52)); [lia|].
    destruct (Z.abs n / 2 ^ (e - 52)) as [|p|p] eqn:Hq; [lia| |lia].
    eexists. split; [done|]. simpl.
    destruct (Z.leb_spec 0 (e - 52)); [|lia].
    f_equal. rewrite Hv. by apply cond_Zopp_sign.
  - (* fewer bits: the mantissa is the quotient shifted left *)
    assert (0 < 2 ^ (- (e - 52))) as Hp by (apply Z.pow_pos_nonneg; lia).
    replace (Z.abs n * Z.abs b * 2 ^ (- (e - 52)))
      with (Z.abs n * 2 ^ (- (e - 52)) * Z.abs b) by lia.
    rewrite rne_div_exact by lia.
    assert (2 ^ 52 ≤ Z.abs n * 2 ^ (- (e - 52)) < 2 ^ 53) as Hm.
    { assert (2 ^ 52 = 2 ^ e * 2 ^ (- (e - 52))) as ->
        by (rewrite <- Z.pow_add_r by lia; f_equal; lia).
      assert (2 ^ 53 = 2 ^ (e + 1) * 2 ^ (- (e - 52))) as ->
        by (rewrite <- Z.pow_add_r by lia; f_equal; lia).
      nia. }
    destruct (Z.eqb_spec (Z.abs n * 2 ^ (- (e - 52))) (2 ^ 53)); [lia|].
    destruct (Z.ltb_spec 971 (e - 52)); [lia|].
    destruct (Z.abs n * 2 ^ (- (e - 52))) as [|p|p] eqn:Hq; [lia| |lia].
    eexists. split; [done|]. simpl.
    destruct (Z.leb_spec 0 (e - 52)); [lia|].
    rewrite <- Hq, Z.mod_mul, Z.div_mul by lia. simpl.
    f_equal. by apply cond_Zopp_sign.
Qed.

Lemma quotient_exponent_bounds a b :
  0 < a < 2 ^ 53 → 0 < b ≤ 2 ^ 53 →
  let e := quotient_exponent a b in
  -53 ≤ e ≤ 52 ∧
  (0 ≤ e → b * 2 ^ e ≤ a) ∧ (e < 0 → b ≤ a * 2 ^ (- e)).
Proof.
  intros Ha Hb. unfold quotient_exponent.
  destruct (Z.leb_spec b a) as [Hle|Hlt]; cbv zeta.
  - assert (0 < a / b) as Hq by (apply Z.div_str_pos; lia).
    pose proof (Z.log2_spec _ Hq) as [Hlo _].
    pose proof (Z.log2_nonneg (a / b)).
    assert (Z.log2 (a / b) ≤ 52).
    { assert (a / b ≤ 2 ^ 53 - 1) as Hq'.
      { transitivity a; [|lia]. apply Z.div_le_upper_bound; nia. }
      apply Z.log2_le_mono in Hq'. by change (Z.log2 (2 ^ 53 - 1)) with 52 in Hq'. }
    split; [lia|]. split; [|lia]. intros _.
    pose proof (Z.mul_div_le a b ltac:(lia)). nia.
  - set (c := (b + a - 1) / a).
    assert (b ≤ a * c) as Hc.
    { unfold c. pose proof (Z.div_mod (b + a - 1) a ltac:(lia)).
      pose proof (Z.mod_pos_bound (b + a - 1) a ltac:(lia)). nia. }
    assert (2 ≤ c ≤ 2 ^ 53) as Hc2.
    { split.
      - unfold c. apply Z.div_le_lower_bound; lia.
      - transitivity b; [|lia]. unfold c.
        apply Z.div_le_upper_bound; [lia|]. nia. }
    pose proof (Z.log2_up_spec c ltac:(lia)) as [_ Hup].
    assert (1 ≤ Z.log2_up c).
    { destruct Hc2 as [Hc2 _]. apply Z.log2_up_le_mono in Hc2.
      by change (Z.log2_up 2) with 1 in Hc2. }
    assert (Z.log2_up c ≤ 53).
    { destruct Hc2 as [_ Hc2]. apply Z.log2_up_le_mono in Hc2.
      by rewrite Z.log2_up_pow2 in Hc2. }
    split; [lia|]. split; [lia|]. intros _.
    rewrite Z.opp_involutive. nia.
Qed.

(** Below 2^53 a quotient that is not whole is never rounded to a whole
    number. *)
Lemma true_divide_inexact a b :
  0 ≤ a < 2 ^ 53 → 0 < b ≤ 2 ^ 53 → ¬ (b | a) →
  ∃ q, true_divide a b = inr q ∧ float_to_int q = None.
Proof.
  intros Ha Hb Hdiv.
  assert (a ≠ 0) as Ha0 by (intros ->; apply Hdiv, Z.divide_0_r).
  pose proof (quotient_exponent_bounds a b ltac:(lia) Hb) as (He & Hge & Hlt).
  unfold true_divide.
  destruct (Z.eqb_spec b 0); [lia|].
  rewrite (Z.abs_eq a), (Z.abs_eq b) by lia.
  destruct (Z.eqb_spec a 0); [lia|].
  set (e := quotient_exponent a b) in *. cbv zeta in He, Hge, Hlt.
  rewrite Z.max_l by lia.
  assert (e ≠ 52) as He52.
  { intros E. rewrite E in Hge. specialize (Hge ltac:(lia)).
    assert (b = 1) as -> by nia. apply Hdiv, Z.divide_1_l. }
  destruct (Z.leb_spec 0 (e - 52)); [lia|].
  set (j := - (e - 52)) in *.
  assert (0 < 2 ^ j) as Hj by (apply Z.pow_pos_nonneg; lia).
  set (m := rne_div (a * 2 ^ j) b).
  pose proof (rne_div_close (a * 2 ^ j) b ltac:(lia)) as Hclose. fold m in Hclose.
  assert (2 ^ 52 ≤ m) as Hm.
  { etransitivity; [|apply rne_div_lower; lia].
    apply Z.div_le_lower_bound; [lia|].
    destruct (Z.le_gt_cases 0 e) as [Hpos|Hneg].
    - specialize (Hge Hpos).
      assert (2 ^ 52 = 2 ^ e * 2 ^ j) as ->
        by (rewrite <- Z.pow_add_r by lia; f_equal; lia).
      nia.
    - specialize (Hlt Hneg).
      assert (2 ^ j = 2 ^ 52 * 2 ^ (- e)) as ->
        by (rewrite <- Z.pow_add_r by lia; f_equal; lia).
      assert (0 < 2 ^ 52) by done. nia. }
  (* a whole result would put [a] within half a unit in the last place of a
     multiple of [b] *)
  assert (∀ w, m = w * 2 ^ j → False) as Hwhole.
  { intros w Hn. rewrite Hn in Hclose.
    assert (a - w * b ≠ 0) as Hne.
    { intros E. apply Hdiv. exists w. lia. }
    assert (2 * 2 ^ j ≤ b) as Hb2 by nia.
    destruct (Z.le_gt_cases 0 e) as [Hpos|Hneg].
    - specialize (Hge Hpos).
      assert (2 ^ 53 = 2 * 2 ^ j * 2 ^ e) as E.
      { change 2 with (2 ^ 1) at 2. rewrite <- !Z.pow_add_r by lia. f_equal. lia. }
      assert (0 < 2 ^ e) by (apply Z.pow_pos_nonneg; lia). nia.
    - specialize (Hlt Hneg).
      assert (2 * 2 ^ j = 2 ^ 53 * 2 ^ (- e)) as E.
      { change 2 with (2 ^ 1) at 1. rewrite <- !Z.pow_add_r by lia. f_equal. lia. }
      assert (0 < 2 ^ (- e)) by (apply Z.pow_pos_nonneg; lia). nia. }
  destruct (Z.eqb_spec m (2 ^ 53)) as [Hm53|Hm53].
  - destruct (Z.ltb_spec 971 (e - 52 + 1)); [lia|].
    change (2 ^ 52) with (Z.pos 4503599627370496).
    eexists. split; [done|]. simpl.
    destruct (Z.leb_spec 0 (e - 52 + 1)) as [Hk|Hk].
    + exfalso. apply (Hwhole (2 ^ 52)). rewrite Hm53.
      assert (j = 1) as -> by lia. done.
    + destruct (Z.eqb_spec (4503599627370496 mod 2 ^ (- (e - 52 + 1))) 0) as [Hmod|]; [|done].
      exfalso. apply Z.mod_divide in Hmod as [c Hc];
        [|apply Z.pow_nonzero; lia].
      apply (Hwhole c). rewrite Hm53.
      change (2 ^ 53) with (4503599627370496 * 2). rewrite Hc.
      assert (2 ^ j = 2 ^ (- (e - 52 + 1)) * 2) as ->; [|lia].
      change 2 with (2 ^ 1) at 3. rewrite <- Z.pow_add_r by lia. f_equal. lia.
  - destruct (Z.ltb_spec 971 (e - 52)); [lia|].
    destruct m as [|p|p] eqn:Hp; [done| |done].
    eexists. split; [done|]. simpl.
    destruct (Z.leb_spec 0 (e - 52)); [lia|]. fold j.
    destruct (Z.eqb_spec (Z.pos p mod 2 ^ j) 0) as [Hmod|]; [|done].
    exfalso. apply Z.mod_divide in Hmod as [c Hc]; [|lia].
    by apply (Hwhole c).
Qed.

(** ** Concrete arrays: shapes and buffers agree *)

Lemma size_cons d sh : size (d :: sh) = d * size sh.
Proof. done. Qed.

Lemma size_nonneg sh : Forall (λ d, 0 ≤ d) sh → 0 ≤ size sh.
Proof. induction 1 as [|d sh Hd _ IH]; [done|]. rewrite size_cons. lia. Qed.

Lemma slice_len_bounds stop d : 0 ≤ d → 0 ≤ slice_len stop d ≤ d.
Proof. unfold slice_len. destruct (stop <? 0) eqn:E; lia. Qed.

Lemma slice_len_1 d : 1 ≤ d → slice_len 1 d = 1.
Proof. unfold slice_len. simpl. lia. Qed.

Lemma wf_sized a : wf a → sized a.
Proof. intros [_ Hlen]. unfold sized. lia. Qed.

Section getitem_axis1.
Context (a : ndarray) (stop d0 d1 : Z) (rest : list Z).
Context (Hwf : wf a) (Hshape : shape a = d0 :: d1 :: rest).

Let inner := size rest.
Let k := slice_len stop d1.

Local Lemma axis1_dims : 0 ≤ d0 ∧ 0 ≤ d1 ∧ 0 ≤ inner ∧ 0 ≤ k ≤ d1.
Proof.
  destruct Hwf as [Hpos _]. rewrite Hshape in Hpos.
  apply Forall_cons in Hpos as [? Hpos]. apply Forall_cons in Hpos as [? Hpos].
  pose proof (slice_len_bounds stop d1). pose proof (size_nonneg rest Hpos).
  unfold inner, k. lia.
Qed.

Local Lemma axis1_length :
  length (data a) = (Z.to_nat d0 * Z.to_nat (d1 * inner))%nat.
Proof.
  destruct Hwf as [_ Hlen]. rewrite Hshape, !size_cons in Hlen.
  fold inner in Hlen. pose proof axis1_dims. nia.
Qed.

Local Lemma axis1_rows :
  Forall (λ r, length r = Z.to_nat (k * inner))
    (take (Z.to_nat (k * inner)) <$>
     chunks (Z.to_nat (d1 * inner)) (Z.to_nat d0) (data a)).
Proof.
  apply Forall_fmap.
  eapply Forall_impl; [apply chunks_same_length; rewrite axis1_length; lia|].
  intros r Hr; simpl. rewrite length_take, Hr. pose proof axis1_dims. nia.
Qed.

Lemma shape_getitem_axis1 :
  shape (nd_getitem_axis1 stop a) = d0 :: slice_len stop d1 :: rest.
Proof. unfold nd_getitem_axis1. by rewrite Hshape. Qed.

Lemma dtype_getitem_axis1 :
  dtype_of (nd_getitem_axis1 stop a) = dtype_of a.
Proof. unfold nd_getitem_axis1. by rewrite Hshape. Qed.

Lemma wf_getitem_axis1 : wf (nd_getitem_axis1 stop a).
Proof.
  pose proof axis1_dims as (?&?&?&?&?).
  split.
  - rewrite shape_getitem_axis1. destruct Hwf as [Hpos _].
    rewrite Hshape in Hpos.
    apply Forall_cons in Hpos as [? Hpos]. apply Forall_cons in Hpos as [? Hpos].
    repeat constructor; [done|by fold k|done].
  - rewrite shape_getitem_axis1. unfold nd_getitem_axis1. rewrite Hshape.
    cbn [data]. fold k inner.
    rewrite (length_join_rows _ _ axis1_rows), length_fmap, length_chunks.
    fold k inner. rewrite !size_cons. fold inner. nia.
Qed.

(** Element [(i, i1, rest...)] of the slice, at offset [j] within frame
    [i], is the element at the same offset of frame [i] of the source. *)
Lemma lookup_getitem_axis1 i j :
  0 ≤ i < d0 → 0 ≤ j < k * inner →
  data (nd_getitem_axis1 stop a) !! Z.to_nat (i * (k * inner) + j)
  = data a !! Z.to_nat (i * (d1 * inner) + j).
Proof.
  intros Hi Hj. pose proof axis1_dims as (?&?&?&?&?).
  unfold nd_getitem_axis1. rewrite Hshape. cbn [data]. fold k inner.
  replace (Z.to_nat (i * (k * inner) + j))
    with (Z.to_nat i * Z.to_nat (k * inner) + Z.to_nat j)%nat by nia.
  rewrite (lookup_join_rows _ _ _ _ axis1_rows) by lia.
  rewrite list_lookup_fmap, chunks_lookup by lia; simpl.
  rewrite lookup_take_lt by lia.
  rewrite lookup_take_lt by nia.
  rewrite lookup_drop. f_equal. nia.
Qed.
End getitem_axis1.

Lemma wf_reshape sh a :
  wf a → Forall (λ d, 0 ≤ d) sh → size sh = size (shape a) → wf (nd_reshape sh a).
Proof. intros [_ Hlen] Hsh Hsz. split; [done|]. simpl. by rewrite Hsz. Qed.

Lemma sized_reshape sh a :
  sized a → size sh = size (shape a) → sized (nd_reshape sh a).
Proof. unfold sized. intros Hlen Hsz. simpl. by rewrite Hsz. Qed.

Lemma shape_mean_axis0 dt p a d0 rest :
  shape a = d0 :: rest → shape (nd_mean_axis0 dt p a) = rest.
Proof. intros Hshape. unfold nd_mean_axis0. by rewrite Hshape. Qed.

Lemma dtype_mean_axis0 dt p a d0 rest :
  shape a = d0 :: rest → dtype_of (nd_mean_axis0 dt p a) = dt.
Proof. intros Hshape. unfold nd_mean_axis0. by rewrite Hshape. Qed.

(** The mean has one element per position of a sub-array, also when the
    shape reduced has a negative entry. *)
Lemma sized_mean_axis0 dt p a d0 rest :
  sized a → shape a = d0 :: rest → sized (nd_mean_axis0 dt p a).
Proof.
  unfold sized. intros Hlen Hshape. rewrite (shape_mean_axis0 _ _ _ _ _ Hshape).
  rewrite Hshape, size_cons in Hlen.
  unfold nd_mean_axis0. rewrite Hshape. cbn [data].
  rewrite length_fmap. unfold sum_rows. apply length_plan_sum.
  apply chunks_same_length. rewrite length_fmap, Hlen. nia.
Qed.

Section mean_axis0.
Context (a : ndarray) (dt : dtype) (p : sum_plan) (d0 : Z) (rest : list Z).
Context (Hwf : wf a) (Hshape : shape a = d0 :: rest).

Let n := size rest.

Local Lemma axis0_dims : 0 ≤ d0 ∧ 0 ≤ n.
Proof.
  destruct Hwf as [Hpos _]. rewrite Hshape in Hpos.
  apply Forall_cons in Hpos as [? Hpos].
  pose proof (size_nonneg rest Hpos). unfold n. lia.
Qed.

Local Lemma axis0_length :
  length (data a) = (Z.to_nat d0 * Z.to_nat n)%nat.
Proof.
  destruct Hwf as [_ Hlen]. rewrite Hshape, size_cons in Hlen.
  fold n in Hlen. pose proof axis0_dims. nia.
Qed.

Local Lemma axis0_rows :
  Forall (λ r, length r = Z.to_nat n)
    (chunks (Z.to_nat n) (Z.to_nat d0) (cast_float dt <$> data a)).
Proof. apply chunks_same_length. rewrite length_fmap, axis0_length. lia. Qed.

Lemma wf_mean_axis0 : wf (nd_mean_axis0 dt p a).
Proof.
  pose proof axis0_dims as [? ?]. split.
  - rewrite (shape_mean_axis0 _ _ _ _ _ Hshape). destruct Hwf as [Hpos _].
    rewrite Hshape in Hpos. by apply Forall_cons in Hpos as [_ ?].
  - pose proof (sized_mean_axis0 dt p a d0 rest (wf_sized a Hwf) Hshape) as Hlen.
    unfold sized in Hlen. rewrite Hlen.
    rewrite (shape_mean_axis0 _ _ _ _ _ Hshape). fold n. lia.
Qed.

(** Every element of the mean is the mean, in the grouping [p], of the
    column of values reduced into it. *)
Lemma lookup_mean_axis0 j :
  0 ≤ j < size rest →
  data (nd_mean_axis0 dt p a) !! Z.to_nat j
  = Some (mean_by dt p (reduced_column a d0 rest j)).
Proof.
  intros Hj. fold n in Hj. pose proof axis0_dims as [? ?].
  unfold nd_mean_axis0. rewrite Hshape. cbn [data]. fold n.
  rewrite list_lookup_fmap. unfold sum_rows.
  rewrite (lookup_plan_sum _ _ (Z.to_nat n)); [|apply axis0_rows|lia].
  simpl. unfold mean_by, reduced_column. fold n.
  do 3 f_equal.
  rewrite chunks_column by lia.
  unfold seqZ. rewrite <-!list_fmap_compose. f_equal.
  apply list_eq; intros t. rewrite !list_lookup_fmap.
  destruct (decide (t < Z.to_nat d0)%nat) as [Ht|Ht].
  - rewrite lookup_seq_lt by done. simpl. f_equal.
    replace (Z.to_nat ((Z.of_nat t + 0) * n + j))
      with (t * Z.to_nat n + Z.to_nat j)%nat by nia.
    apply list_lookup_total_fmap. rewrite axis0_length. nia.
  - by rewrite lookup_seq_ge by lia.
Qed.

Lemma length_reduced_column j :
  length (reduced_column a d0 rest j) = Z.to_nat d0.
Proof. unfold reduced_column. by rewrite length_fmap, length_seqZ. Qed.
End mean_axis0.

(** ** Stacking and unstacking *)

Lemma nd_stack_getitem0 (parts : list ndarray) (sh : list Z) (dt : dtype)
    (i : nat) (p : ndarray) :
  Forall (λ q, sized q ∧ shape q = sh ∧ dtype_of q = dt) parts →
  parts !! i = Some p →
  nd_getitem0 (Z.of_nat i) (nd_stack parts) = Some p.
Proof.
  intros Hparts Hi.
  assert (i < length parts)%nat as Hlt by (by eapply lookup_lt_Some).
  assert (Forall (λ r, length r = Z.to_nat (size sh)) (data <$> parts)) as Hrows.
  { apply Forall_fmap. eapply Forall_impl; [exact Hparts|].
    intros q (Hlen & Hsh & _); simpl. unfold sized in Hlen. by rewrite Hsh in Hlen. }
  pose proof (proj1 (Forall_lookup _ _) Hparts i p Hi) as (Hlen & Hsh & Hdt).
  unfold sized in Hlen.
  destruct parts as [|p0 parts']; [done|].
  apply Forall_cons in Hparts as [(_ & Hsh0 & Hdt0) _].
  unfold nd_stack, nd_getitem0. cbn [shape dtype_of data].
  rewrite Hsh0.
  replace ((0 <=? Z.of_nat i) && (Z.of_nat i <? Z.of_nat (length (p0 :: parts'))))
    with true by (symmetry; apply andb_true_iff; split; lia).
  rewrite Nat2Z.id. f_equal.
  destruct p as [psh pdt pdata]; simpl in Hsh, Hdt, Hlen. subst psh pdt.
  f_equal; [done|]. change pdata with (data (NdArray sh dt pdata)).
  apply list_eq; intros j.
  destruct (decide (j < Z.to_nat (size sh))%nat) as [Hj|Hj].
  - rewrite lookup_take_lt, lookup_drop by done.
    rewrite (lookup_join_rows _ _ _ _ Hrows) by done.
    by rewrite list_lookup_fmap, Hi.
  - rewrite lookup_take_ge by lia. symmetry. apply lookup_ge_None_2.
    cbn [data]. lia.
Qed.

(** ** Resolution of a requested shape *)

(** A resolved shape keeps the element count. *)
Lemma resolve_shape_sound sz req sh :
  resolve_shape sz req = inr sh → size sh = sz.
Proof.
  unfold resolve_shape.
  destruct (if decide _ then _ else _) as [e|sh']; [done|].
  destruct (Z.eqb_spec (size sh') sz); [|done]. by intros [= <-].
Qed.

(** The request of [average_module]: one unknown leading dimension, then
    [pulses_per_train], 512 rows and 128 columns. *)
Lemma resolve_trains sz ppt :
  resolve_shape sz [-1; ppt; 512; 128]
  = match infer_trains sz ppt with
    | inr trains => inr [trains; ppt; 512; 128]
    | inl e => inl e
    end.
Proof.
  unfold resolve_shape, infer_trains.
  rewrite !filter_cons, !filter_nil.
  rewrite (decide_False (P := -1 ≠ -1)) by (intros H; by apply H).
  rewrite (decide_True (P := 512 ≠ -1)), (decide_True (P := 128 ≠ -1)) by done.
  destruct (decide (ppt = -1)) as [->|Hppt].
  { rewrite (decide_False (P := -1 ≠ -1)) by (intros H; by apply H). done. }
  rewrite (decide_True (P := ppt ≠ -1)) by done. cbn [length].
  rewrite decide_True by lia. rewrite decide_False by lia.
  rewrite !size_cons. change (size []) with 1.
  replace (ppt * (512 * (128 * 1))) with (ppt * frame_pixels)
    by (unfold frame_pixels; lia).
  destruct (true_divide sz (ppt * frame_pixels)) as [e|q]; [done|].
  unfold sanitize_index.
  destruct (float_to_int q) as [trains|]; [|done].
  rewrite !fmap_cons, fmap_nil. cbn [Z.eqb Pos.eqb].
  replace (ppt =? -1) with false by lia.
  rewrite !size_cons. change (size []) with 1.
  replace (trains * (ppt * (512 * (128 * 1)))) with (trains * (ppt * frame_pixels))
    by (unfold frame_pixels; lia).
  by destruct (_ =? sz).
Qed.

(** What the inferred number of trains is. *)
Lemma infer_trains_inr sz ppt trains :
  infer_trains sz ppt = inr trains →
  trains * (ppt * frame_pixels) = sz ∧ ppt ≠ 0 ∧ ppt ≠ -1.
Proof.
  unfold infer_trains. destruct (decide (ppt = -1)) as [|Hm1]; [done|].
  destruct (decide (ppt = 0)) as [->|Hnz]; [done|].
  destruct (true_divide _ _) as [e|q]; [done|].
  destruct (float_to_int q) as [n|]; [|done].
  destruct (Z.eqb_spec (n * (ppt * frame_pixels)) sz) as [Heq|]; [|done].
  by intros [= <-].
Qed.

(** Whole trains, no more of them than floats tell apart, are inferred. *)
Lemma infer_trains_exact ppt trains :
  ppt ≠ 0 → ppt ≠ -1 → Z.abs trains ≤ 2 ^ 53 →
  infer_trains (trains * (ppt * frame_pixels)) ppt = inr trains.
Proof.
  intros Hnz Hppt Htrains. unfold infer_trains.
  rewrite decide_False by done.
  destruct (true_divide_exact trains (ppt * frame_pixels)) as (q & -> & ->);
    [unfold frame_pixels; lia|done|].
  by rewrite Z.eqb_refl.
Qed.

(** When the element count is not a multiple of [ppt * 512 * 128] the
    reshape raises. *)
Lemma infer_trains_fails sz ppt :
  ¬ (ppt * frame_pixels | sz) →
  ∃ e, infer_trains sz ppt = inl e ∧ reshape_error e.
Proof.
  intros Hdiv. unfold infer_trains.
  destruct (decide (ppt = -1)) as [|_]; [by eexists|].
  destruct (true_divide _ _) as [e|q] eqn:Hq.
  { exists e. split; [done|]. unfold true_divide in Hq.
    destruct (_ =? 0); [by injection Hq as <-|].
    destruct (_ =? 0); [done|].
    destruct (if _ =? _ then _ else _) as [m k].
    destruct (971 <? k); [by injection Hq as <-|]. by destruct m. }
  destruct (float_to_int q) as [n|]; [|by eexists].
  destruct (Z.eqb_spec (n * (ppt * frame_pixels)) sz) as [Heq|]; [|by eexists].
  destruct Hdiv. by exists n.
Qed.

(** Below [2^53] elements what it raises is the IndexError for a quotient
    that is not whole. *)
Lemma infer_trains_uneven sz ppt :
  0 ≤ sz < 2 ^ 53 → 1 ≤ ppt → ppt * frame_pixels ≤ 2 ^ 53 →
  ¬ (ppt * frame_pixels | sz) →
  ∃ q, true_divide sz (ppt * frame_pixels) = inr q ∧
       float_to_int q = None ∧
       infer_trains sz ppt = inl (BadIndex q).
Proof.
  intros Hsz Hppt Hbound Hdiv.
  destruct (true_divide_inexact sz (ppt * frame_pixels)) as (q & Hq & Hint);
    [done|unfold frame_pixels in *; lia|done|].
  exists q. split_and!; [done..|].
  unfold infer_trains. rewrite decide_False by lia. by rewrite Hq, Hint.
Qed.

(** ** Lazy arrays: the metadata stays truthful *)

Lemma valid_from_array a : wf a → valid (da_from_array a).
Proof. by intros Ha. Qed.

Lemma valid_getitem_axis1 stop x y :
  valid x → da_getitem_axis1 stop x = inr y → valid y.
Proof.
  intros (Hwf & Hsh & Hdt). unfold da_getitem_axis1.
  destruct (dshape x) as [|d0 [|d1 rest]] eqn:E; intros [= <-].
  split_and!; simpl.
  - by eapply wf_getitem_axis1.
  - by eapply shape_getitem_axis1.
  - by erewrite dtype_getitem_axis1.
Qed.

(** [da_stack] succeeds exactly on a non-empty list of parts of one shape. *)
Lemma da_stack_inr xs y :
  da_stack xs = inr y →
  ∃ x xs', xs = x :: xs' ∧ Forall (λ z, dshape z = dshape x) xs ∧
    y = {| dshape := Z.of_nat (length xs) :: dshape x;
           ddtype := ddtype x;
           graph := Stack (graph <$> xs) |}.
Proof.
  unfold da_stack. destruct xs as [|x xs']; [done|].
  destruct (list_find _ _) as [[? z]|] eqn:E; [done|]. intros [= <-].
  exists x, xs'. split_and!; [done| |done].
  apply list_find_None in E. eapply Forall_impl; [exact E|].
  intros z Hz; simpl in Hz. by destruct (decide (dshape z = dshape x)).
Qed.

Lemma da_stack_same_shape x xs :
  Forall (λ z, dshape z = dshape x) (x :: xs) →
  da_stack (x :: xs)
  = inr {| dshape := Z.of_nat (length (x :: xs)) :: dshape x;
           ddtype := ddtype x;
           graph := Stack (graph <$> x :: xs) |}.
Proof.
  intros Hall. unfold da_stack.
  destruct (list_find _ _) as [[i z]|] eqn:E; [|done].
  apply list_find_Some in E as (Hi & Hz & _).
  apply (proj1 (Forall_lookup _ _) Hall) in Hi. done.
Qed.

(** ** The notebook monad *)

Lemma bind_lift_inr {A B} (x : A) (f : A → M B) s :
  (lift (inr x) ≫= f) s = f x s.
Proof. done. Qed.

Lemma bind_lift_inl {A B} (e : exn) (f : A → M B) s :
  (lift (inl e) ≫= f) s = (inl e, s).
Proof. done. Qed.

(** ** Reading elements by multi-index *)

Lemma item_2d a d0 d1 i0 i1 :
  shape a = [d0; d1] → 0 ≤ i0 < d0 → 0 ≤ i1 < d1 →
  item a [i0; i1] = data a !! Z.to_nat (i0 * d1 + i1).
Proof.
  intros Hsh ??. unfold item, ravel. rewrite Hsh. cbn [in_bounds ravel_from].
  replace ((0 <=? i0) && (i0 <? d0)) with true by lia.
  replace ((0 <=? i1) && (i1 <? d1)) with true by lia.
  reflexivity.
Qed.

Lemma item_3d a d0 d1 d2 i0 i1 i2 :
  shape a = [d0; d1; d2] → 0 ≤ i0 < d0 → 0 ≤ i1 < d1 → 0 ≤ i2 < d2 →
  item a [i0; i1; i2] = data a !! Z.to_nat ((i0 * d1 + i1) * d2 + i2).
Proof.
  intros Hsh ???. unfold item, ravel. rewrite Hsh. cbn [in_bounds ravel_from].
  replace ((0 <=? i0) && (i0 <? d0)) with true by lia.
  replace ((0 <=? i1) && (i1 <? d1)) with true by lia.
  replace ((0 <=? i2) && (i2 <? d2)) with true by lia.
  reflexivity.
Qed.

Lemma item_4d a d0 d1 d2 d3 i0 i1 i2 i3 :
  shape a = [d0; d1; d2; d3] →
  0 ≤ i0 < d0 → 0 ≤ i1 < d1 → 0 ≤ i2 < d2 → 0 ≤ i3 < d3 →
  item a [i0; i1; i2; i3]
  = data a !! Z.to_nat (((i0 * d1 + i1) * d2 + i2) * d3 + i3).
Proof.
  intros Hsh ????. unfold item, ravel. rewrite Hsh. cbn [in_bounds ravel_from].
  replace ((0 <=? i0) && (i0 <? d0)) with true by lia.
  replace ((0 <=? i1) && (i1 <? d1)) with true by lia.
  replace ((0 <=? i2) && (i2 <? d2)) with true by lia.
  replace ((0 <=? i3) && (i3 <? d3)) with true by lia.
  reflexivity.
Qed.

(** ** Offsets of multi-indices *)

Lemma ravel_from_acc sh idx acc :
  in_bounds sh idx = true →
  ravel_from acc sh idx = acc * size sh + ravel_from 0 sh idx.
Proof.
  revert idx acc. induction sh as [|d sh IH]; intros [|i idx] acc Hb;
    try discriminate Hb.
  - simpl. unfold size; simpl. lia.
  - cbn [in_bounds] in Hb. apply andb_true_iff in Hb as [_ Hb].
    cbn [ravel_from]. rewrite IH by done. rewrite (IH idx (0 * d + i)) by done.
    rewrite size_cons. lia.
Qed.

Lemma ravel_from_bounds sh idx :
  in_bounds sh idx = true → 0 ≤ ravel_from 0 sh idx < size sh.
Proof.
  revert idx. induction sh as [|d sh IH]; intros [|i idx] Hb;
    try discriminate Hb.
  - simpl. unfold size; simpl. lia.
  - cbn [in_bounds] in Hb. apply andb_true_iff in Hb as [Hi Hb].
    cbn [ravel_from]. rewrite ravel_from_acc by done. rewrite size_cons.
    specialize (IH idx Hb). nia.
Qed.

(** Indexing the leading axis first: [a[i, idx...] = a[i][idx...]]. *)
Lemma item_getitem0 a i b idx :
  nd_getitem0 i a = Some b → item a (i :: idx) = item b idx.
Proof.
  unfold nd_getitem0, item.
  destruct (shape a) as [|d0 rest]; [done|].
  destruct ((0 <=? i) && (i <? d0)) eqn:Hi; [|done]. intros [= <-].
  cbn [shape data in_bounds]. rewrite Hi. cbn [andb].
  destruct (in_bounds rest idx) eqn:Hb; [|done].
  unfold ravel. cbn [ravel_from]. rewrite ravel_from_acc by done.
  pose proof (ravel_from_bounds rest idx Hb).
  rewrite lookup_take_lt by lia. rewrite lookup_drop. f_equal.
  pose proof (size_nonneg rest) as Hsz. nia.
Qed.

(** ** What [average_module] does *)

(** The call written out: every step either raises, leaving the state as it
    was, or hands its result on; only the report for module 0 changes the
    state. *)
Lemma average_module_unfold `{!Session} modno run ppt s :
  average_module modno run ppt s
  = match get_data_counts run (module_source modno) "image.data" with
    | inl e => (inl e, s)
    | inr _ =>
      match get_dask_array run (module_source modno) "image.data" with
      | inl e => (inl e, s)
      | inr raw =>
        match da_getitem_axis1 1 raw with
        | inl e => (inl e, s)
        | inr arr =>
          match da_reshape [-1; ppt; 512; 128] arr with
          | inl e => (inl e, s)
          | inr arr_trains =>
              (da_mean_axis0 Float32 arr_trains,
               reported modno (dshape arr) (dshape arr_trains) s)
          end
        end
      end
    end.
Proof.
  unfold average_module.
  destruct (get_data_counts _ _ _) as [e|counts]; [done|]. rewrite bind_lift_inr.
  destruct (get_dask_array _ _ _) as [e|raw]; [done|]. rewrite bind_lift_inr.
  destruct (da_getitem_axis1 1 raw) as [e|arr]; [done|]. rewrite bind_lift_inr.
  destruct (da_reshape _ arr) as [e|arr_trains]; [done|]. rewrite bind_lift_inr.
  unfold reported. destruct (bool_decide (modno = 0)); [|done].
  unfold mbind, M_bind, print, lift; cbn. by rewrite <-app_assoc.
Qed.

(** What is returned does not depend on the state the call starts in. *)
Lemma average_module_value `{!Session} modno run ppt s1 s2 :
  fst (average_module modno run ppt s1) = fst (average_module modno run ppt s2).
Proof.
  rewrite !average_module_unfold.
  destruct (get_data_counts _ _ _); [done|].
  destruct (get_dask_array _ _ _) as [|raw]; [done|].
  destruct (da_getitem_axis1 1 raw) as [|arr]; [done|].
  by destruct (da_reshape _ arr).
Qed.

(** The reshape of the call in terms of the number of trains it infers. *)
Lemma reshape_to_trains ppt arr :
  da_reshape [-1; ppt; 512; 128] arr
  = match infer_trains (size (dshape arr)) ppt with
    | inr trains =>
        inr {| dshape := [trains; ppt; 512; 128];
               ddtype := ddtype arr;
               graph := Reshape [trains; ppt; 512; 128] (graph arr) |}
    | inl e => inl e
    end.
Proof.
  unfold da_reshape. rewrite decide_False by (by intros [? _]).
  rewrite resolve_trains. by destruct (infer_trains _ _).
Qed.

Section average_module.
Context `{!Session} (modno : Z) (run : Run) (ppt : Z).
Context (counts : list (Z * Z)) (raw : darray) (d0 d1 : Z) (rest : list Z).
Context (Hcounts :
  get_data_counts run (module_source modno) "image.data" = inr counts).
Context (Hraw :
  get_dask_array run (module_source modno) "image.data" = inr raw).
Context (Hshape : dshape raw = d0 :: d1 :: rest).

Let arr_shape := d0 :: slice_len 1 d1 :: rest.
Let sz := size arr_shape.

Lemma average_module_eq s :
  average_module modno run ppt s
  = match infer_trains sz ppt with
    | inr trains =>
        (inr (averaged ppt trains raw),
         reported modno arr_shape [trains; ppt; 512; 128] s)
    | inl e => (inl e, s)
    end.
Proof.
  rewrite average_module_unfold, Hcounts, Hraw.
  unfold da_getitem_axis1. rewrite Hshape.
  rewrite reshape_to_trains. cbn [dshape]. fold arr_shape sz.
  by destruct (infer_trains sz ppt).
Qed.
End average_module.

(** On frames of 512 x 128 pixels that come in whole trains the call
    succeeds, with one leading index per train. *)
Lemma average_module_trains `{!Session} modno run ppt trains d1 raw counts s :
  1 ≤ ppt → 1 ≤ d1 → Z.abs trains ≤ 2 ^ 53 →
  get_data_counts run (module_source modno) "image.data" = inr counts →
  get_dask_array run (module_source modno) "image.data" = inr raw →
  dshape raw = [trains * ppt; d1; 512; 128] →
  average_module modno run ppt s
  = (inr (averaged ppt trains raw),
     reported modno [trains * ppt; 1; 512; 128] [trains; ppt; 512; 128] s).
Proof.
  intros Hppt Hd1 Htrains Hcounts Hraw Hshape.
  rewrite (average_module_eq _ _ _ _ _ _ _ _ Hcounts Hraw Hshape).
  rewrite slice_len_1 by done. rewrite !size_cons. change (size []) with 1.
  replace (trains * ppt * (1 * (512 * (128 * 1))))
    with (trains * (ppt * frame_pixels)) by (unfold frame_pixels; lia).
  by rewrite infer_trains_exact by lia.
Qed.

(** A successful call hands back the graph of the run's array, extended by
    the slice, the reshape to the inferred number of trains and the mean. *)
Lemma average_module_inr `{!Session} modno run ppt s avg :
  fst (average_module modno run ppt s) = inr avg →
  ∃ counts raw d0 d1 rest trains,
    get_data_counts run (module_source modno) "image.data" = inr counts ∧
    get_dask_array run (module_source modno) "image.data" = inr raw ∧
    dshape raw = d0 :: d1 :: rest ∧
    infer_trains (size (d0 :: slice_len 1 d1 :: rest)) ppt = inr trains ∧
    avg = averaged ppt trains raw.
Proof.
  intros Havg.
  destruct (get_data_counts run (module_source modno) "image.data")
    as [e|counts] eqn:Hcounts.
  { rewrite average_module_unfold, Hcounts in Havg. discriminate Havg. }
  destruct (get_dask_array run (module_source modno) "image.data")
    as [e|raw] eqn:Hraw.
  { rewrite average_module_unfold, Hcounts, Hraw in Havg. discriminate Havg. }
  destruct (dshape raw) as [|d0 [|d1 rest]] eqn:Hshape.
  - rewrite average_module_unfold, Hcounts, Hraw in Havg.
    unfold da_getitem_axis1 in Havg. rewrite Hshape in Havg. discriminate Havg.
  - rewrite average_module_unfold, Hcounts, Hraw in Havg.
    unfold da_getitem_axis1 in Havg. rewrite Hshape in Havg. discriminate Havg.
  - rewrite (average_module_eq _ _ _ _ _ _ _ _ Hcounts Hraw Hshape) in Havg.
    destruct (infer_trains _ ppt) as [e|trains] eqn:Htrains; [discriminate Havg|].
    cbn in Havg. injection Havg as <-.
    by exists counts, raw, d0, d1, rest, trains.
Qed.

(** The array reduced in a successful call has the length its shape tells. *)
Lemma by_trains_sized raw ppt trains d0 d1 rest :
  valid raw → dshape raw = d0 :: d1 :: rest →
  trains * (ppt * frame_pixels) = size (d0 :: slice_len 1 d1 :: rest) →
  sized (eval (graph (by_trains ppt trains raw))).
Proof.
  intros (Hwf & Hsh & _) Hshape Htrains. rewrite Hshape in Hsh.
  cbn [by_trains graph eval]. apply sized_reshape.
  - by eapply wf_sized, wf_getitem_axis1.
  - rewrite (shape_getitem_axis1 _ _ _ _ _ Hsh), <-Htrains.
    rewrite !size_cons. change (size []) with 1. unfold frame_pixels. lia.
Qed.

(** With a positive number of pulses per train it is well formed. *)
Lemma by_trains_valid raw ppt trains d0 d1 rest :
  valid raw → dshape raw = d0 :: d1 :: rest → 1 ≤ ppt →
  trains * (ppt * frame_pixels) = size (d0 :: slice_len 1 d1 :: rest) →
  0 ≤ trains ∧ valid (by_trains ppt trains raw).
Proof.
  intros Hvalid Hshape Hppt Htrains.
  pose proof Hvalid as (Hwf & Hsh & Hdt). rewrite Hshape in Hsh.
  pose proof (wf_getitem_axis1 _ 1 _ _ _ Hwf Hsh) as Hslice.
  pose proof (proj1 Hslice) as Hpos.
  rewrite (shape_getitem_axis1 _ _ _ _ _ Hsh) in Hpos.
  apply size_nonneg in Hpos. rewrite <-Htrains in Hpos.
  assert (0 ≤ trains) as Hnonneg by (unfold frame_pixels in Hpos; nia).
  split; [done|]. split_and!.
  - pose proof (by_trains_sized _ _ _ _ _ _ Hvalid Hshape Htrains) as Hlen.
    unfold sized in Hlen. split.
    + repeat constructor; lia.
    + rewrite Hlen. cbn [by_trains graph eval nd_reshape shape].
      pose proof (size_nonneg [trains; ppt; 512; 128]) as Hsz.
      rewrite Z2Nat.id; [done|]. apply Hsz. repeat constructor; lia.
  - done.
  - cbn [by_trains graph eval nd_reshape dtype_of ddtype].
    by rewrite (dtype_getitem_axis1 _ _ _ _ _ Hsh).
Qed.

(** The value of a successful call has one element per (pulse, row, column),
    also when [pulses_per_train] is negative. *)
Lemma average_module_inr_sized `{!Session} modno run ppt s avg :
  run_valid run →
  fst (average_module modno run ppt s) = inr avg →
  sized (eval (graph avg)) ∧
  shape (eval (graph avg)) = [ppt; 512; 128] ∧
  dtype_of (eval (graph avg)) = Float32 ∧
  dshape avg = [ppt; 512; 128] ∧ ddtype avg = Float32.
Proof.
  intros Hrun Havg.
  destruct (average_module_inr _ _ _ _ _ Havg)
    as (counts & raw & d0 & d1 & rest & trains & _ & Hraw & Hshape & Htrains & ->).
  apply infer_trains_inr in Htrains as (Htrains & _ & _).
  split_and!; [|done..].
  change (eval (graph (averaged ppt trains raw)))
    with (nd_mean_axis0 Float32 (mean_plan (by_trains ppt trains raw))
            (eval (graph (by_trains ppt trains raw)))).
  eapply sized_mean_axis0; [|reflexivity].
  eapply by_trains_sized; eauto.
Qed.

Lemma average_module_inr_valid `{!Session} modno run ppt s avg :
  run_valid run → 1 ≤ ppt →
  fst (average_module modno run ppt s) = inr avg →
  valid avg ∧ dshape avg = [ppt; 512; 128] ∧ ddtype avg = Float32.
Proof.
  intros Hrun Hppt Havg.
  destruct (average_module_inr _ _ _ _ _ Havg)
    as (counts & raw & d0 & d1 & rest & trains & _ & Hraw & Hshape & Htrains & ->).
  apply infer_trains_inr in Htrains as (Htrains & _ & _).
  destruct (by_trains_valid _ _ _ _ _ _ (Hrun _ _ _ Hraw) Hshape Hppt Htrains)
    as (_ & Hwf & Hsh & _).
  split; [|done]. split_and!; [|done..].
  change (eval (graph (averaged ppt trains raw)))
    with (nd_mean_axis0 Float32 (mean_plan (by_trains ppt trains raw))
            (eval (graph (by_trains ppt trains raw)))).
  eapply wf_mean_axis0; [exact Hwf|exact Hsh].
Qed.

Lemma module_ready_succeeds `{!Session} run ppt i s :
  1 ≤ ppt → module_ready run ppt i →
  ∃ avg, fst (average_module i run ppt s) = inr avg.
Proof.
  intros Hppt (counts & raw & frames & d1 & Hcounts & Hraw & Hshape & Hd1
               & [k ->] & Hframes).
  eexists. erewrite average_module_trains; [done..| |done|done|done]. nia.
Qed.

Lemma averaged_shape `{!Session} ppt trains raw :
  shape (eval (graph (averaged ppt trains raw))) = [ppt; 512; 128].
Proof. reflexivity. Qed.

(** ** The mean over trains, pulse by pulse *)

Section mean_over_trains.
Context `{!Session} (raw : darray) (ppt trains d1 : Z).
Context (Hvalid : valid raw).
Context (Hshape : dshape raw = [trains * ppt; d1; 512; 128]).
Context (Hppt : 1 ≤ ppt) (Htrains : 0 ≤ trains) (Hd1 : 1 ≤ d1).

Let source_array := eval (graph raw).
Let sliced := nd_getitem_axis1 1 source_array.
Let by_train := nd_reshape [trains; ppt; 512; 128] sliced.

Local Lemma source_shape : shape source_array = [trains * ppt; d1; 512; 128].
Proof. destruct Hvalid as (_ & Hsh & _). unfold source_array. by rewrite Hsh. Qed.

Local Lemma source_wf : wf source_array.
Proof. apply Hvalid. Qed.

Local Lemma sliced_shape : shape sliced = [trains * ppt; 1; 512; 128].
Proof.
  unfold sliced. erewrite shape_getitem_axis1 by apply source_shape.
  by rewrite slice_len_1.
Qed.

Local Lemma by_train_wf : wf by_train.
Proof.
  apply wf_reshape.
  - eapply wf_getitem_axis1; [apply source_wf|apply source_shape].
  - repeat constructor; lia.
  - fold sliced. rewrite sliced_shape. rewrite !size_cons. lia.
Qed.

(** Frame [t * ppt + p] of the source is pulse [p] of train [t]. *)
Local Lemma by_train_lookup t p r c :
  0 ≤ t < trains → 0 ≤ p < ppt → 0 ≤ r < 512 → 0 ≤ c < 128 →
  data by_train
    !! Z.to_nat (t * size [ppt; 512; 128] + ((p * 512 + r) * 128 + c))
  = item source_array [t * ppt + p; 0; r; c].
Proof.
  intros Ht Hp Hr Hc.
  rewrite (item_4d _ _ _ _ _ _ _ _ _ source_shape) by nia.
  pose proof (lookup_getitem_axis1 source_array 1 _ _ _ source_wf source_shape
                (t * ppt + p) (r * 128 + c)) as Hget.
  rewrite slice_len_1 in Hget by done. change (size [512; 128]) with 65536 in Hget.
  change (data by_train) with (data sliced). unfold sliced.
  change (size [ppt; 512; 128]) with (ppt * (512 * (128 * 1))).
  replace (t * (ppt * (512 * (128 * 1))) + ((p * 512 + r) * 128 + c))
    with ((t * ppt + p) * (1 * 65536) + (r * 128 + c)) by lia.
  rewrite Hget by nia. f_equal. lia.
Qed.

(** The reshape makes frame [t * ppt + p] pulse [p] of train [t]. *)
Lemma train_view t p r c :
  0 ≤ t < trains → 0 ≤ p < ppt → 0 ≤ r < 512 → 0 ≤ c < 128 →
  item (eval (Reshape [trains; ppt; 512; 128] (GetItemAxis1 1 (graph raw))))
       [t; p; r; c]
  = item (eval (graph raw)) [t * ppt + p; 0; r; c].
Proof.
  intros Ht Hp Hr Hc. cbn [eval]. fold source_array sliced by_train.
  erewrite item_4d; [|reflexivity|lia..].
  rewrite <-by_train_lookup by done. f_equal.
  change (size [ppt; 512; 128]) with (ppt * (512 * (128 * 1))). lia.
Qed.

(** Every element of the result is the mean of the values its pixel has at
    its pulse in all the trains, added in the grouping of the session. *)
Lemma mean_over_trains p r c :
  0 ≤ p < ppt → 0 ≤ r < 512 → 0 ≤ c < 128 →
  ∃ vs, pulse_values source_array ppt trains p r c = Some vs ∧
        length vs = Z.to_nat trains ∧
        item (eval (graph (averaged ppt trains raw))) [p; r; c]
        = Some (mean_by Float32 (mean_plan (by_trains ppt trains raw)) vs).
Proof.
  intros Hp Hr Hc.
  set (j := (p * 512 + r) * 128 + c).
  exists (reduced_column by_train trains [ppt; 512; 128] j). split_and!.
  - unfold pulse_values. apply mapM_Some. unfold reduced_column.
    apply Forall2_fmap_r, Forall_Forall2_diag, Forall_seqZ.
    intros t Ht. rewrite <-by_train_lookup by lia. fold j.
    apply list_lookup_lookup_total_lt.
    destruct by_train_wf as [_ Hlen]. cbn [shape by_train nd_reshape] in Hlen.
    rewrite !size_cons in *. change (size []) with 1 in *. nia.
  - apply length_reduced_column.
  - cbn [averaged graph eval]. fold source_array sliced by_train.
    erewrite item_3d; [|by eapply shape_mean_axis0|done..]. fold j.
    eapply lookup_mean_axis0; [apply by_train_wf|done|].
    rewrite !size_cons. change (size []) with 1. unfold j. lia.
Qed.
End mean_over_trains.

(** ** Sums that are exact *)

(** binary32 additions of non-negative integers are exact as long as the
    sum stays small (here: up to 64, checked case by case). *)
Lemma small_sums_exact a b :
  0 ≤ a → 0 ≤ b → a + b ≤ 64 →
  fadd Float32 (float_of_Z Float32 a) (float_of_Z Float32 b)
  = float_of_Z Float32 (a + b).
Proof.
  intros Ha Hb Hab.
  assert (Forall (λ x, Forall (λ y,
            fadd Float32 (float_of_Z Float32 x) (float_of_Z Float32 y)
            = float_of_Z Float32 (x + y)) (seqZ 0 65)) (seqZ 0 65)) as Hall.
  { refine (bool_decide_unpack _ _). vm_compute. exact I. }
  rewrite Forall_seqZ in Hall. specialize (Hall a ltac:(lia)).
  rewrite Forall_seqZ in Hall. apply Hall. lia.
Qed.

Lemma total_app zs1 zs2 : total (zs1 ++ zs2) = total zs1 + total zs2.
Proof. induction zs1 as [|z zs1 IH]; simpl; [done|]. unfold total in *. simpl. lia. Qed.

Lemma total_nonneg zs : Forall (λ z, 0 ≤ z) zs → 0 ≤ total zs.
Proof. induction 1 as [|z zs Hz _ IH]; [done|]. unfold total in *. simpl. lia. Qed.

(** Whatever the grouping, the binary32 sum of small non-negative integers
    is their sum, and the binary32 count of a few rows is their number. *)
Lemma fold_left_small zs acc :
  Forall (λ z, 0 ≤ z) zs → 0 ≤ acc → acc + total zs ≤ 64 →
  fold_left (fadd Float32) (float_of_Z Float32 <$> zs) (float_of_Z Float32 acc)
  = float_of_Z Float32 (acc + total zs).
Proof.
  intros Hpos. revert acc.
  induction Hpos as [|z zs Hz Hzs IH]; intros acc Hacc Hsum; simpl.
  - unfold total. simpl. by rewrite Z.add_0_r.
  - pose proof (total_nonneg _ Hzs).
    change (total (z :: zs)) with (z + total zs) in Hsum |- *.
    rewrite small_sums_exact, IH by lia. f_equal. lia.
Qed.

Lemma plan_sum_small p zs :
  Forall (λ z, 0 ≤ z) zs → total zs ≤ 64 → plan_rows p = length zs →
  plan_sum (fadd Float32) fzero p (float_of_Z Float32 <$> zs)
  = float_of_Z Float32 (total zs).
Proof.
  revert zs. induction p as [n|l IHl r IHr]; intros zs Hpos Hsum Hlen; simpl in *.
  - rewrite take_ge by (rewrite length_fmap; lia).
    by apply (fold_left_small zs 0).
  - assert (total zs = total (take (plan_rows l) zs)
                       + total (drop (plan_rows l) zs)) as Htot
      by (by rewrite <-total_app, take_drop).
    pose proof (total_nonneg _ (Forall_take _ (plan_rows l) _ Hpos)).
    pose proof (total_nonneg _ (Forall_drop _ (plan_rows l) _ Hpos)).
    rewrite <-fmap_take, <-fmap_drop.
    rewrite IHl, IHr, Htot.
    + apply small_sums_exact; lia.
    + by apply Forall_drop.
    + lia.
    + rewrite length_drop. lia.
    + by apply Forall_take.
    + lia.
    + rewrite length_take. lia.
Qed.

Lemma plan_count_small p :
  (plan_rows p ≤ 64)%nat →
  plan_count Float32 p = float_of_Z Float32 (Z.of_nat (plan_rows p)).
Proof.
  induction p as [n|l IHl r IHr]; intros Hrows; simpl in *; [done|].
  rewrite IHl, IHr by lia. rewrite small_sums_exact by lia. f_equal. lia.
Qed.

(** ** The synthetic inputs are well formed *)

Lemma wf_filled_frames vals : wf (filled_frames vals).
Proof.
  split; [repeat constructor; lia|].
  unfold filled_frames; cbn [data shape].
  rewrite (length_join_rows (Z.to_nat frame_pixels)).
  - rewrite length_fmap, !size_cons. change (size []) with 1.
    unfold frame_pixels. lia.
  - apply Forall_fmap, Forall_true. intros v. apply length_replicate.
Qed.

Lemma wf_full sh v : Forall (λ d, 0 ≤ d) sh → wf (full sh v).
Proof.
  intros Hsh. split; [done|]. unfold full; cbn [data shape].
  rewrite length_replicate. pose proof (size_nonneg sh Hsh). lia.
Qed.

Lemma lookup_module_valid src i mods a :
  Forall wf mods → lookup_module src i mods = Some a → wf a.
Proof.
  intros Hmods. revert i. induction Hmods as [|b mods Hb _ IH]; intros i; [done|].
  simpl. case_decide; [by intros [= <-]|apply IH].
Qed.

Lemma run_of_modules_valid per_train mods :
  Forall wf mods → run_valid (run_of_modules per_train mods).
Proof.
  intros Hmods src key raw. simpl.
  destruct (lookup_module src 0 mods) as [a|] eqn:E; [|done].
  case_decide; [|done]. intros [= <-].
  eapply valid_from_array, lookup_module_valid; eauto.
Qed.

(** ** Frames filled with one value *)

Lemma lookup_filled {A} n (vals : list A) k j :
  (j < n)%nat → mjoin (replicate n <$> vals) !! (k * n + j)%nat = vals !! k.
Proof.
  intros Hj. rewrite (lookup_join_rows n).
  - rewrite list_lookup_fmap. destruct (vals !! k); [simpl|done].
    by apply lookup_replicate_2.
  - apply Forall_fmap, Forall_true. intros v. apply length_replicate.
  - done.
Qed.

Lemma item_filled_frames vals k r c :
  0 ≤ k < Z.of_nat (length vals) → 0 ≤ r < 512 → 0 ≤ c < 128 →
  item (filled_frames vals) [k; 0; r; c] = SInt <$> vals !! Z.to_nat k.
Proof.
  intros Hk Hr Hc. erewrite item_4d; [|reflexivity|lia..].
  unfold filled_frames; cbn [data].
  replace ((λ v, replicate (Z.to_nat frame_pixels) (SInt v)) <$> vals)
    with (replicate (Z.to_nat frame_pixels) <$> (SInt <$> vals))
    by (by rewrite <-list_fmap_compose).
  replace (Z.to_nat (((k * 1 + 0) * 512 + r) * 128 + c))
    with (Z.to_nat k * Z.to_nat frame_pixels + Z.to_nat (r * 128 + c))%nat
    by (unfold frame_pixels; lia).
  rewrite lookup_filled by (unfold frame_pixels; lia).
  by rewrite list_lookup_fmap.
Qed.

Lemma item_full sh v idx :
  Forall (λ d, 0 ≤ d) sh → in_bounds sh idx = true →
  item (full sh v) idx = Some (SInt v).
Proof.
  intros Hsh Hb. unfold item, full; cbn [shape data]. rewrite Hb.
  apply lookup_replicate_2.
  pose proof (ravel_from_bounds sh idx Hb). unfold ravel. lia.
Qed.

(** ** Frames with a wide placeholder axis *)

Lemma layered_rows (vals : list Z) :
  Forall (λ r, length r = Z.to_nat frame_pixels)
    ((λ v, replicate (Z.to_nat frame_pixels) (SInt v)) <$> vals).
Proof. apply Forall_fmap, Forall_true. intros v. apply length_replicate. Qed.

Lemma wf_layered_frames frames vals : wf (layered_frames frames vals).
Proof.
  split; [repeat constructor; lia|].
  unfold layered_frames; cbn [data shape].
  rewrite (length_join_rows (length vals * Z.to_nat frame_pixels)).
  - rewrite length_replicate, !size_cons. change (size []) with 1.
    unfold frame_pixels. lia.
  - apply Forall_replicate.
    by rewrite (length_join_rows _ _ (layered_rows vals)), length_fmap.
Qed.

Lemma item_layered_frames frames vals f k r c :
  0 ≤ f < Z.of_nat frames → 0 ≤ k < Z.of_nat (length vals) →
  0 ≤ r < 512 → 0 ≤ c < 128 →
  item (layered_frames frames vals) [f; k; r; c] = SInt <$> vals !! Z.to_nat k.
Proof.
  intros Hf Hk Hr Hc. erewrite item_4d; [|reflexivity|lia..].
  unfold layered_frames; cbn [data].
  set (n := Z.to_nat frame_pixels).
  replace (Z.to_nat (((f * Z.of_nat (length vals) + k) * 512 + r) * 128 + c))
    with (Z.to_nat f * (length vals * n)
          + (Z.to_nat k * n + Z.to_nat (r * 128 + c)))%nat
    by (unfold n, frame_pixels; lia).
  rewrite (lookup_join_rows (length vals * n)).
  - rewrite lookup_replicate_2 by lia. cbn [mbind option_bind].
    replace ((λ v, replicate n (SInt v)) <$> vals)
      with (replicate n <$> (SInt <$> vals))
      by (by rewrite <-list_fmap_compose).
    rewrite lookup_filled by (unfold n, frame_pixels; lia).
    by rewrite list_lookup_fmap.
  - apply Forall_replicate. unfold n.
    by rewrite (length_join_rows _ _ (layered_rows vals)), length_fmap.
  - unfold n, frame_pixels. nia.
Qed.

(** ** The comprehension over the modules *)

Lemma for_each_inr {A} (f : Z → M A) (idxs : list Z) s xs s' :
  for_each f idxs s = (inr xs, s') →
  Forall2 (λ i x, ∃ si, fst (f i si) = inr x) idxs xs.
Proof.
  revert s xs. induction idxs as [|i idxs IH]; intros s xs; simpl.
  - intros [= <- <-]. constructor.
  - unfold mbind, M_bind, mret, M_ret.
    destruct (f i s) as [[e|x] s1] eqn:Hf; [done|].
    destruct (for_each f idxs s1) as [[e|xs'] s2] eqn:Hrest; [done|].
    intros [= <- <-]. constructor; [|by eapply IH].
    exists s. by rewrite Hf.
Qed.

Lemma for_each_all_inr {A} (f : Z → M A) (idxs : list Z) s :
  Forall (λ i, ∀ si, ∃ x, fst (f i si) = inr x) idxs →
  ∃ xs s', for_each f idxs s = (inr xs, s').
Proof.
  intros Hall. revert s. induction Hall as [|i idxs Hi _ IH]; intros s; simpl.
  - by eexists _, _.
  - unfold mbind, M_bind, mret, M_ret. destruct (Hi s) as [x Hx].
    destruct (f i s) as [[e|x'] s1]; simplify_eq/=.
    destruct (IH s1) as (xs & s2 & ->). by eexists _, _.
Qed.

Lemma for_each_quiet {A} (f : Z → M A) idxs s :
  Forall (λ i, ∀ si, snd (f i si) = si) idxs → snd (for_each f idxs s) = s.
Proof.
  intros Hall. revert s. induction Hall as [|i idxs Hi _ IH]; intros s; [done|].
  simpl. unfold mbind, M_bind, mret, M_ret.
  specialize (Hi s). specialize (IH s).
  destruct (f i s) as [[e|x] s1]; simpl in Hi; subst s1; [done|].
  by destruct (for_each f idxs s) as [[e|xs] s2].
Qed.

(** The comprehension raises what the first failing call raises. *)
Lemma for_each_first_failure {A} (f : Z → M A) idxs (n : nat) k e s :
  idxs !! n = Some k →
  (∀ (j : nat) i, (j < n)%nat → idxs !! j = Some i →
     ∀ si, ∃ x, fst (f i si) = inr x) →
  (∀ sk, fst (f k sk) = inl e) →
  fst (for_each f idxs s) = inl e.
Proof.
  revert n s. induction idxs as [|i idxs IH]; intros n s Hn Hbefore Hk; [done|].
  simpl. unfold mbind, M_bind, mret, M_ret. destruct n as [|n].
  - injection Hn as ->. specialize (Hk s).
    destruct (f k s) as [[e'|x] s1]; simpl in Hk; by simplify_eq.
  - destruct (Hbefore 0%nat i ltac:(lia) eq_refl s) as [x Hx].
    destruct (f i s) as [[e'|x'] s1]; simpl in Hx; [done|].
    specialize (IH n s1 Hn).
    destruct (for_each f idxs s1) as [[e'|xs] s2]; simpl in *.
    + apply IH; [|done]. intros j i' Hj Hi'. apply (Hbefore (S j) i'); [lia|done].
    + exfalso. enough (inr xs = inl e :> exn + list A) by done.
      apply IH; [|done]. intros j i' Hj Hi'. apply (Hbefore (S j) i'); [lia|done].
Qed.

Lemma for_each_inl {A} (f : Z → M A) idxs s e s' :
  for_each f idxs s = (inl e, s') →
  ∃ (n : nat) k,
    idxs !! n = Some k ∧
    (∀ (j : nat) i, (j < n)%nat → idxs !! j = Some i →
       ∃ si x, fst (f i si) = inr x) ∧
    ∃ sk, fst (f k sk) = inl e.
Proof.
  revert s. induction idxs as [|i idxs IH]; intros s; [done|].
  simpl. unfold mbind, M_bind, mret, M_ret.
  destruct (f i s) as [[e'|x] s1] eqn:Hf.
  - intros [= -> ->]. exists 0%nat, i. split_and!; [done|lia|].
    exists s. by rewrite Hf.
  - destruct (for_each f idxs s1) as [[e'|xs] s2] eqn:Hrest; [|done].
    intros [= -> ->]. destruct (IH _ Hrest) as (n & k & Hn & Hbefore & Hk).
    exists (S n), k. split_and!; [done| |done].
    intros [|j] i' Hj Hi'.
    + injection Hi' as <-. exists s, x. by rewrite Hf.
    + apply (Hbefore j); [lia|done].
Qed.

Lemma all_average_unfold `{!Session} run :
  all_average run = stacked_averages run 64 (range 16).
Proof. reflexivity. Qed.

Lemma stacked_averages_inr `{!Session} run ppt mods s stacked s' :
  stacked_averages run ppt mods s = (inr stacked, s') →
  ∃ parts, for_each (λ i, average_module i run ppt) mods s = (inr parts, s') ∧
           da_stack parts = inr stacked.
Proof.
  unfold stacked_averages, mbind, M_bind.
  destruct (for_each _ mods s) as [[e|parts] s1]; [done|].
  unfold lift. intros [= Hstack <-]. by exists parts.
Qed.

(** The averages that [mod_averages] returns can always be stacked. *)
Lemma mod_averages_stackable `{!Session} run ppt mods s parts s' :
  mods ≠ [] →
  for_each (λ m, average_module m run ppt) mods s = (inr parts, s') →
  ∃ x parts',
    parts = x :: parts' ∧ length parts = length mods ∧
    Forall (λ y, dshape y = [ppt; 512; 128] ∧ ddtype y = Float32) parts ∧
    da_stack parts
    = inr {| dshape := Z.of_nat (length mods) :: [ppt; 512; 128];
             ddtype := Float32;
             graph := Stack (graph <$> parts) |}.
Proof.
  intros Hmods Hparts.
  pose proof (for_each_inr _ _ _ _ _ Hparts) as Hall.
  pose proof (Forall2_length _ _ _ Hall) as Hlen.
  assert (Forall (λ y, dshape y = [ppt; 512; 128] ∧ ddtype y = Float32) parts)
    as Hmeta.
  { apply Forall2_Forall_r with (1 := Hall), Forall_true.
    intros i avg [si Havg].
    by destruct (average_module_inr _ _ _ _ _ Havg)
      as (? & ? & ? & ? & ? & ? & _ & _ & _ & _ & ->). }
  destruct parts as [|x parts']; [destruct mods; [done|discriminate Hlen]|].
  exists x, parts'. split; [done|]. split; [done|]. split; [done|].
  pose proof (proj1 (Forall_cons _ _ _) Hmeta) as [[Hx Hdt] _].
  rewrite da_stack_same_shape.
  - by rewrite Hx, Hdt, Hlen.
  - eapply Forall_impl; [exact Hmeta|]. intros y [Hy _]; simpl. by rewrite Hx.
Qed.

Lemma nd_stack_wf parts sh :
  parts ≠ [] → Forall (λ q, wf q ∧ shape q = sh) parts →
  wf (nd_stack parts) ∧ shape (nd_stack parts) = Z.of_nat (length parts) :: sh.
Proof.
  intros Hne Hparts. destruct parts as [|p parts']; [done|].
  pose proof (proj1 (Forall_cons _ _ _) Hparts) as [[[Hpos _] Hsh] _].
  rewrite Hsh in Hpos.
  assert (shape (nd_stack (p :: parts'))
          = Z.of_nat (length (p :: parts')) :: sh) as Hshape.
  { unfold nd_stack; cbn [shape]. by rewrite Hsh. }
  split; [|done]. split.
  - rewrite Hshape. constructor; [lia|done].
  - rewrite Hshape, size_cons. unfold nd_stack; cbn [data].
    rewrite (length_join_rows (Z.to_nat (size sh))).
    + rewrite length_fmap. pose proof (size_nonneg sh Hpos). nia.
    + apply Forall_fmap. eapply Forall_impl; [exact Hparts|].
      intros q [[_ Hlen] Hq]; simpl. rewrite Hq in Hlen. lia.
Qed.

(** The evaluated parts of a comprehension over [average_module]. *)
Lemma mod_averages_sized `{!Session} run ppt mods s parts s' :
  run_valid run →
  for_each (λ m, average_module m run ppt) mods s = (inr parts, s') →
  Forall (λ q, sized q ∧ shape q = [ppt; 512; 128] ∧ dtype_of q = Float32)
    (eval <$> (graph <$> parts)).
Proof.
  intros Hrun Hparts.
  pose proof (for_each_inr _ _ _ _ _ Hparts) as Hall.
  rewrite <-list_fmap_compose. apply Forall_fmap.
  apply Forall2_Forall_r with (1 := Hall), Forall_true.
  intros m y [sm Hy]; simpl.
  by destruct (average_module_inr_sized _ _ _ _ _ Hrun Hy) as (? & ? & ? & _).
Qed.

Lemma mod_averages_values `{!Session} run ppt mods s parts s' :
  run_valid run → 1 ≤ ppt →
  for_each (λ m, average_module m run ppt) mods s = (inr parts, s') →
  Forall (λ q, wf q ∧ shape q = [ppt; 512; 128] ∧ dtype_of q = Float32)
    (eval <$> (graph <$> parts)).
Proof.
  intros Hrun Hppt Hparts.
  pose proof (for_each_inr _ _ _ _ _ Hparts) as Hall.
  rewrite <-list_fmap_compose. apply Forall_fmap.
  apply Forall2_Forall_r with (1 := Hall), Forall_true.
  intros m y [sm Hy]; simpl.
  destruct (average_module_inr_valid _ _ _ _ _ Hrun Hppt Hy)
    as ((Hwf & Hsh & Hdt) & Hds & Hdd).
  split_and!; [done|by rewrite Hsh|by rewrite Hdt].
Qed.

(** Index [i] of the stack of a comprehension is the value of the [i]-th
    average. *)
Lemma stacked_getitem0 `{!Session} run ppt mods s parts s' stacked
    (i : nat) modno :
  run_valid run →
  for_each (λ m, average_module m run ppt) mods s = (inr parts, s') →
  da_stack parts = inr stacked →
  mods !! i = Some modno →
  ∃ avg,
    parts !! i = Some avg ∧
    fst (average_module modno run ppt s) = inr avg ∧
    nd_getitem0 (Z.of_nat i) (eval (graph stacked)) = Some (eval (graph avg)).
Proof.
  intros Hrun Hparts Hstack Hi.
  pose proof (for_each_inr _ _ _ _ _ Hparts) as Hall.
  destruct (Forall2_lookup_l _ _ _ _ _ Hall Hi) as (avg & Havg & [si Hsi]).
  exists avg.
  split_and!; [done|by rewrite (average_module_value _ _ _ s si)|].
  destruct (da_stack_inr _ _ Hstack) as (x & parts' & -> & _ & ->).
  cbn [graph eval].
  apply (nd_stack_getitem0 _ [ppt; 512; 128] Float32).
  - by eapply mod_averages_sized.
  - by rewrite !list_lookup_fmap, Havg.
Qed.

(** ** The end-to-end scenario on images of 512 x 128 pixels *)

Lemma scenario_run_valid : run_valid scenario_run.
Proof.
  apply run_of_modules_valid.
  repeat (constructor; [apply wf_filled_frames|]). constructor.
Qed.

Lemma scenario_pulse_values first p r c :
  0 ≤ p < 2 → 0 ≤ r < 512 → 0 ≤ c < 128 →
  pulse_values (filled_frames (seqZ first 8)) 2 4 p r c
  = Some [SInt (first + p); SInt (first + 2 + p);
          SInt (first + 4 + p); SInt (first + 6 + p)].
Proof.
  intros Hp Hr Hc. unfold pulse_values.
  change (seqZ 0 4) with [0; 1; 2; 3]. cbn [mapM].
  rewrite !item_filled_frames by (rewrite ?length_seqZ; lia).
  rewrite !lookup_seqZ_lt by lia. cbn.
  rewrite !Z2Nat.id by lia. apply (f_equal Some).
  repeat (apply (f_equal2 (@cons scalar)); [apply (f_equal SInt); lia|]).
  done.
Qed.

(** In every grouping the mean over the four trains is the binary32
    quotient of the exact sum by 4. *)
Lemma scenario_average_item `{!Session} first p r c :
  0 ≤ first ≤ 12 → 0 ≤ p < 2 → 0 ≤ r < 512 → 0 ≤ c < 128 →
  item (eval (graph (scenario_average first))) [p; r; c]
  = Some (SFloat (fdiv Float32 (float_of_Z Float32 (4 * first + 12 + 4 * p))
                               (float_of_Z Float32 4))).
Proof.
  intros Hfirst Hp Hr Hc. unfold scenario_average.
  set (raw := da_from_array (filled_frames (seqZ first 8))).
  assert (valid raw) as Hvalid by apply valid_from_array, wf_filled_frames.
  assert (dshape raw = [4 * 2; 1; 512; 128]) as Hshape.
  { unfold raw, da_from_array, da_from_chunks, filled_frames. cbn [dshape shape].
    by rewrite length_seqZ. }
  destruct (mean_over_trains raw 2 4 1 Hvalid Hshape ltac:(lia) ltac:(lia)
              ltac:(lia) p r c Hp Hr Hc) as (vs & Hvs & _ & Hitem).
  rewrite Hitem. do 2 f_equal.
  unfold raw in Hvs. cbn [eval graph da_from_array da_from_chunks] in Hvs.
  rewrite scenario_pulse_values in Hvs by done. injection Hvs as <-.
  unfold mean_by.
  change (cast_float Float32 <$> [SInt (first + p); SInt (first + 2 + p);
                                  SInt (first + 4 + p); SInt (first + 6 + p)])
    with (float_of_Z Float32 <$> [first + p; first + 2 + p;
                                  first + 4 + p; first + 6 + p]).
  assert (plan_rows (mean_plan (by_trains 2 4 raw)) = 4%nat) as Hrows
    by (by rewrite mean_plan_rows).
  rewrite plan_count_small by lia. rewrite Hrows.
  rewrite plan_sum_small.
  - replace (total [first + p; first + 2 + p; first + 4 + p; first + 6 + p])
      with (4 * first + 12 + 4 * p) by (unfold total; simpl; lia).
    reflexivity.
  - repeat constructor; lia.
  - unfold total; simpl. lia.
  - done.
Qed.

(** ** The cells on the recorded run *)

Lemma recorded_run_valid : run_valid recorded_run.
Proof.
  apply run_of_modules_valid, Forall_replicate, wf_full.
  repeat constructor; lia.
Qed.

Lemma recorded_run_ready : Forall (module_ready recorded_run 64) (range 16).
Proof.
  change (range 16) with [0; 1; 2; 3; 4; 5; 6; 7; 8; 9; 10; 11; 12; 13; 14; 15].
  repeat (apply Forall_cons_2;
          [exists (train_counts 64 (full [191872; 2; 512; 128] 0)),
                  (da_from_array (full [191872; 2; 512; 128] 0)), 191872, 2;
           split_and!;
             [reflexivity|reflexivity|reflexivity|lia|by exists 2998|lia|done]|]).
  apply Forall_nil_2.
Qed.

Lemma recorded_mod_averages_eq `{!Session} :
  for_each (λ m, average_module m recorded_run 64) (range 16) start
  = (inr recorded_parts, recorded_state).
Proof. reflexivity. Qed.

(** ** The model against the notebook's recorded output *)

(** Cell 12 printed the two shapes, for module 0 only. *)
Example recorded_console `{!Session} :
  console (snd (mod_averages recorded_run start))
  = ["array shape: (191872, 1, 512, 128)";
     "Reshaped to: (2998, 64, 512, 128)"].
Proof. reflexivity. Qed.

(** Cell 13 showed sixteen lazy arrays of shape (64, 512, 128), float32. *)
Example recorded_mod_averages `{!Session} :
  fmap (M := option) (fmap (M := list) shown)
    (returned (mod_averages recorded_run start))
  = Some (replicate 16 ([64; 512; 128], Float32)).
Proof. reflexivity. Qed.

(** Cell 14 showed a lazy array of shape (16, 64, 512, 128), float32. *)
Example recorded_all_average `{!Session} :
  shown <$> returned (all_average recorded_run start)
  = Some ([16; 64; 512; 128], Float32).
Proof. reflexivity. Qed.

(** Until cell 16 nothing is evaluated; cell 16 evaluates one graph. *)
Example recorded_evaluations `{!Session} :
  evaluations (snd (all_average recorded_run start)) = 0%nat ∧
  evaluations (snd (all_average_arr recorded_run start)) = 1%nat.
Proof. split; reflexivity. Qed.

(** After cell 16 the console holds the two shapes and the two lines of the
    [%%time] magic, here with the durations the notebook recorded. *)
Example recorded_timing :
  console (snd (all_average_arr recorded_run start))
  = ["array shape: (191872, 1, 512, 128)";
     "Reshaped to: (2998, 64, 512, 128)";
     "CPU times: user 16.2 s, sys: 1.24 s, total: 17.4 s";
     "Wall time: 1min 37s"].
Proof. reflexivity. Qed.

(** float32 accumulation rounds: the mean of 1, 1, 2 is the binary32 number
    nearest to 4/3, and adding 1 to 2^24 is lost. *)
Example float32_mean_rounds :
  mean_1d Float32 [SInt 1; SInt 1; SInt 2]
  = SFloat (S754_finite false 11184811 (-23)) ∧
  mean_1d Float32 [SInt 16777216; SInt 1]
  = SFloat (float_of_Z Float32 8388608).
Proof. split; vm_compute; reflexivity. Qed.

(** The grouping matters: the mean of 2^24, 1, 1 is 5592405.5 when the three
    values are added in order and 5592406.0 when the last two form a chunk
    of their own. *)
Example grouping_matters :
  mean_by Float32 (in_order 3) [SInt 16777216; SInt 1; SInt 1]
  = SFloat (S754_finite false 11184811 (-1)) ∧
  mean_by Float32 (in_chunks [1; 2]%nat) [SInt 16777216; SInt 1; SInt 1]
  = SFloat (S754_finite false 11184812 (-1)).
Proof. split; vm_compute; reflexivity. Qed.

(** Division of integers: 3 / 2 is 1.5, -7 / 2 is -3.5, 6 / -3 is the
    integer -2, 2^53 + 1 is rounded to 2^53; on integers that binary64
    represents it is the IEEE division. *)
Example true_divide_values :
  true_divide 3 2 = inr (S754_finite false 6755399441055744 (-52)) ∧
  sanitize_index (S754_finite false 6755399441055744 (-52))
  = inl (BadIndex (S754_finite false 6755399441055744 (-52))) ∧
  true_divide (-7) 2 = inr (S754_finite true 7881299347898368 (-51)) ∧
  true_divide 6 (-3) = inr (S754_finite true 4503599627370496 (-51)) ∧
  sanitize_index (S754_finite true 4503599627370496 (-51)) = inr (-2) ∧
  true_divide (2 ^ 53 + 1) 1 = inr (S754_finite false 4503599627370496 1) ∧
  sanitize_index (S754_finite false 4503599627370496 1) = inr (2 ^ 53) ∧
  true_divide 1 0 = inl ZeroDivisionError ∧
  true_divide 1 3
  = inr (SFdiv 53 1024 (float_of_Z Float64 1) (float_of_Z Float64 3)) ∧
  true_divide 191872 64
  = inr (SFdiv 53 1024 (float_of_Z Float64 191872) (float_of_Z Float64 64)).
Proof. split_and!; vm_compute; reflexivity. Qed.

(** A negative [pulses_per_train] is not rejected: on three frames of
    1024 x 128 pixels and -2 pulses per train the call prints two shapes and
    returns a lazy array of shape (-2, 512, 128).  With 0 pulses per train
    the division raises. *)
Example negative_pulses_accepted `{!Session} :
  shown <$> returned (average_module 0 tall_image_run (-2) start)
  = Some ([-2; 512; 128], Float32) ∧
  console (snd (average_module 0 tall_image_run (-2) start))
  = ["array shape: (3, 1, 1024, 128)"; "Reshaped to: (-3, -2, 512, 128)"] ∧
  average_module 0 tall_image_run 0 start = (inl ZeroDivisionError, start).
Proof. split_and!; reflexivity. Qed.

(** The source of module 0, as cell 10 of the notebook spells it. *)
Example module_source_0 : module_source 0 = "SPB_DET_AGIPD1M-1/DET/0CH0:xtdf".
Proof. reflexivity. Qed.

(** ** What module 0 reports *)

Lemma average_module_quiet `{!Session} modno run ppt s :
  modno ≠ 0 → snd (average_module modno run ppt s) = s.
Proof.
  intros Hne. rewrite average_module_unfold.
  destruct (get_data_counts _ _ _); [done|].
  destruct (get_dask_array _ _ _) as [|raw]; [done|].
  destruct (da_getitem_axis1 1 raw) as [|arr]; [done|].
  destruct (da_reshape _ arr) as [|arr_trains]; [done|].
  cbn [snd]. unfold reported. by rewrite bool_decide_false.
Qed.

(** A successful call for module 0 appends the shape of the sliced array
    and the shape it is reshaped to; a call that raises leaves the state. *)
Lemma average_module_0_state `{!Session} run ppt s :
  match fst (average_module 0 run ppt s) with
  | inr _ =>
      ∃ raw d0 d1 rest trains,
        get_dask_array run (module_source 0) "image.data" = inr raw ∧
        dshape raw = d0 :: d1 :: rest ∧
        trains * (ppt * frame_pixels) = size (d0 :: slice_len 1 d1 :: rest) ∧
        snd (average_module 0 run ppt s)
        = {| console := console s ++
               ["array shape: " +:+ repr_tuple (d0 :: slice_len 1 d1 :: rest);
                "Reshaped to: " +:+ repr_tuple [trains; ppt; 512; 128]];
             evaluations := evaluations s |}
  | inl _ => snd (average_module 0 run ppt s) = s
  end.
Proof.
  destruct (fst (average_module 0 run ppt s)) as [e|avg] eqn:Havg.
  - rewrite average_module_unfold in Havg |- *.
    destruct (get_data_counts _ _ _); [done|].
    destruct (get_dask_array _ _ _) as [|raw]; [done|].
    destruct (da_getitem_axis1 1 raw) as [|arr]; [done|].
    rewrite reshape_to_trains in Havg |- *.
    by destruct (infer_trains _ _).
  - destruct (average_module_inr _ _ _ _ _ Havg)
      as (counts & raw & d0 & d1 & rest & trains & Hcounts & Hraw & Hshape
          & Htrains & _).
    exists raw, d0, d1, rest, trains. split_and!; [done..| |].
    + by apply infer_trains_inr in Htrains as (? & _).
    + by rewrite (average_module_eq _ _ _ _ _ _ _ _ Hcounts Hraw Hshape), Htrains.
Qed.

(** * The claims *)

(** C1 (as amended).  For an input array of shape
    (trains * pulses_per_train, d, 512, 128) with [d >= 1],
    [pulses_per_train >= 1] and at most [2^53] trains, the per-module
    averaging step succeeds and its value at each (pulse, row, column) is the
    float32 mean of the values the pixel has at that pulse index in every
    train: the binary32 quotient of their binary32 sum by their binary32
    count, both added up in the chunks the session cuts the trains into.
    When the trains form one chunk, it is the float32 mean taken directly,
    with one accumulator. *)
Theorem C1_mean_per_pulse `{!Session} modno run ppt trains d1 raw counts s :
  1 ≤ ppt → 0 ≤ trains ≤ 2 ^ 53 → 1 ≤ d1 →
  get_data_counts run (module_source modno) "image.data" = inr counts →
  get_dask_array run (module_source modno) "image.data" = inr raw →
  valid raw →
  dshape raw = [trains * ppt; d1; 512; 128] →
  ∃ avg,
    fst (average_module modno run ppt s) = inr avg ∧
    ∀ p r c, 0 ≤ p < ppt → 0 ≤ r < 512 → 0 ≤ c < 128 →
      ∃ vs, pulse_values (eval (graph raw)) ppt trains p r c = Some vs ∧
            length vs = Z.to_nat trains ∧
            item (eval (graph avg)) [p; r; c]
            = Some (mean_by Float32 (mean_plan (by_trains ppt trains raw)) vs) ∧
            (mean_plan (by_trains ppt trains raw) = in_order (Z.to_nat trains) →
             item (eval (graph avg)) [p; r; c] = Some (mean_1d Float32 vs)).
Proof.
  intros Hppt Htrains Hd1 Hcounts Hraw Hvalid Hshape.
  exists (averaged ppt trains raw). split.
  - erewrite average_module_trains; [done..|lia|done|done|done].
  - intros p r c Hp Hr Hc.
    destruct (mean_over_trains raw ppt trains d1 Hvalid Hshape Hppt
                ltac:(lia) Hd1 p r c Hp Hr Hc) as (vs & Hvs & Hlen & Hitem).
    exists vs. split_and!; [done..|].
    intros Hplan. by rewrite Hitem, Hplan, <-Hlen, mean_by_in_order.
Qed.

Lemma C1_mean_per_pulse_witness :
  ∃ avg,
    fst (average_module 0 scenario_run 2 start) = inr avg ∧
    ∀ p r c, 0 ≤ p < 2 → 0 ≤ r < 512 → 0 ≤ c < 128 →
      ∃ vs, pulse_values (filled_frames (seqZ 1 8)) 2 4 p r c = Some vs ∧
            length vs = Z.to_nat 4 ∧
            item (eval (graph avg)) [p; r; c]
            = Some (mean_by Float32
                      (mean_plan (by_trains 2 4
                         (da_from_array (filled_frames (seqZ 1 8))))) vs) ∧
            (mean_plan (by_trains 2 4 (da_from_array (filled_frames (seqZ 1 8))))
             = in_order (Z.to_nat 4) →
             item (eval (graph avg)) [p; r; c] = Some (mean_1d Float32 vs)).
Proof.
  apply (C1_mean_per_pulse 0 scenario_run 2 4 1
           (da_from_array (filled_frames (seqZ 1 8)))
           (train_counts 2 (filled_frames (seqZ 1 8))) start).
  - lia.
  - split; [lia|done].
  - lia.
  - reflexivity.
  - reflexivity.
  - apply valid_from_array, wf_filled_frames.
  - reflexivity.
Defined.

(** C1 fails as stated.  On images of 2 x 3 pixels (two trains of two
    pulses) the values at pulse 0 of pixel (0, 0) are 1 and 13, but the step
    raises at the reshape and returns nothing.  On images of 512 x 128
    pixels holding 1, 1 and 2 in three trains of one pulse the step returns
    11184811 / 2^23 and not the arithmetic mean 4/3.  With [2^53 + 1] trains
    the step raises although the frames come in whole trains. *)
Lemma C1_fails_as_stated :
  (get_dask_array small_image_run (module_source 0) "image.data"
   = inr (da_from_array (int_array [2 * 2; 1; 2; 3] (seqZ 1 24))) ∧
   pulse_values (int_array [2 * 2; 1; 2; 3] (seqZ 1 24)) 2 2 0 0 0
   = Some [SInt 1; SInt 13] ∧
   average_module 0 small_image_run 2 start
   = (inl (BadIndex (S754_finite false 6755399441055744 (-65))), start)) ∧
  (pulse_values (filled_frames [1; 1; 2]) 1 3 0 0 0
   = Some [SInt 1; SInt 1; SInt 2] ∧
   (∃ avg, fst (average_module 0 thirds_run 1 start) = inr avg ∧
           item (eval (graph avg)) [0; 0; 0]
           = Some (SFloat (S754_finite false 11184811 (-23)))) ∧
   3 * 11184811 ≠ (1 + 1 + 2) * 2 ^ 23) ∧
  (get_dask_array endless_run (module_source 0) "image.data"
   = inr (da_from_array (full [(2 ^ 53 + 1) * 1; 1; 512; 128] 0)) ∧
   average_module 0 endless_run 1 start = (inl TotalSizeChanged, start)).
Proof.
  split_and!; try reflexivity.
  - exists (averaged 1 3 (da_from_array (filled_frames [1; 1; 2]))).
    split; [reflexivity|].
    destruct (mean_over_trains (da_from_array (filled_frames [1; 1; 2])) 1 3 1)
      with (p := 0) (r := 0) (c := 0) as (vs & Hvs & _ & Hitem);
      [apply valid_from_array, wf_filled_frames|reflexivity|lia..|].
    rewrite Hitem. cbn [eval graph da_from_array da_from_chunks] in Hvs.
    assert (vs = [SInt 1; SInt 1; SInt 2]) as ->.
    { assert (pulse_values (filled_frames [1; 1; 2]) 1 3 0 0 0
              = Some [SInt 1; SInt 1; SInt 2]) as Hvs' by reflexivity.
      congruence. }
    change (mean_plan (by_trains 1 3 (da_from_array (filled_frames [1; 1; 2]))))
      with (in_order 3).
    vm_compute. reflexivity.
  - done.
Qed.

(** C2 (as amended).  For a module whose frames have 512 x 128 pixels (a
    placeholder axis of width at least 1, fewer than [2^53] elements,
    [pulses_per_train >= 1]) and whose frame count is not a multiple of
    [pulses_per_train], the per-module averaging step fails at the reshape:
    the array library raises its IndexError for an index that is not
    integer-like, which reports the float quotient of the element count by
    [pulses_per_train * 512 * 128] and nothing else; nothing is returned and
    nothing is printed. *)
Theorem C2_uneven_frames_rejected `{!Session}
    modno run ppt frames d1 raw counts s :
  1 ≤ ppt → 1 ≤ d1 → 0 ≤ frames →
  frames * frame_pixels < 2 ^ 53 → ppt * frame_pixels ≤ 2 ^ 53 →
  get_data_counts run (module_source modno) "image.data" = inr counts →
  get_dask_array run (module_source modno) "image.data" = inr raw →
  dshape raw = [frames; d1; 512; 128] →
  ¬ (ppt | frames) →
  ∃ q, true_divide (frames * frame_pixels) (ppt * frame_pixels) = inr q ∧
       float_to_int q = None ∧
       average_module modno run ppt s = (inl (BadIndex q), s).
Proof.
  intros Hppt Hd1 Hframes Hsize Hbound Hcounts Hraw Hshape Hndiv.
  destruct (infer_trains_uneven (frames * frame_pixels) ppt)
    as (q & Hq & Hint & Hinfer); [unfold frame_pixels in *; lia|done..| |].
  { intros Hdiv. apply Hndiv.
    apply (Z.mul_divide_cancel_r _ _ frame_pixels); [done|exact Hdiv]. }
  exists q. split_and!; [done..|].
  rewrite (average_module_eq _ _ _ _ _ _ _ _ Hcounts Hraw Hshape).
  rewrite slice_len_1 by done. rewrite !size_cons. change (size []) with 1.
  replace (frames * (1 * (512 * (128 * 1)))) with (frames * frame_pixels)
    by (unfold frame_pixels; lia).
  by rewrite Hinfer.
Qed.

Lemma C2_uneven_frames_rejected_witness :
  ∃ q, true_divide (3 * frame_pixels) (2 * frame_pixels) = inr q ∧
       float_to_int q = None ∧
       average_module 0 three_frame_run 2 start = (inl (BadIndex q), start).
Proof.
  apply (C2_uneven_frames_rejected 0 three_frame_run 2 3 1
           (da_from_array (filled_frames [1; 2; 3]))
           (train_counts 2 (filled_frames [1; 2; 3])) start).
  - lia.
  - lia.
  - lia.
  - done.
  - done.
  - reflexivity.
  - reflexivity.
  - reflexivity.
  - intros [k Hk]. lia.
Defined.

(** C2 fails as stated.  Three frames of 1024 x 128 pixels are not a whole
    number of trains of two pulses, yet the step returns a result, having
    regrouped the values as three trains of two images of 512 x 128.  And
    where it fails, on three frames of 512 x 128 pixels, the error reports
    the number 1.5 and neither the frame count nor the pulses per train. *)
Lemma C2_fails_as_stated :
  (get_dask_array tall_image_run (module_source 0) "image.data"
   = inr (da_from_array (full [3; 1; 1024; 128] 7)) ∧
   ¬ (2 | 3) ∧
   average_module 0 tall_image_run 2 start
   = (inr (averaged 2 3 (da_from_array (full [3; 1; 1024; 128] 7))),
      {| console := ["array shape: (3, 1, 1024, 128)";
                     "Reshaped to: (3, 2, 512, 128)"];
         evaluations := 0 |})) ∧
  (get_dask_array three_frame_run (module_source 0) "image.data"
   = inr (da_from_array (filled_frames [1; 2; 3])) ∧
   average_module 0 three_frame_run 2 start
   = (inl (BadIndex (S754_finite false 6755399441055744 (-52))), start) ∧
   2 * 6755399441055744 = 3 * 2 ^ 52).
Proof.
  split_and!; try reflexivity.
  intros [k Hk]. lia.
Qed.

(** C3.  Stacking the per-module averages keeps the order of the modules:
    for every list of modules asked for and every position [i] in it, the
    stacked value at index [i] is the value of the average of the [i]-th
    module.  In the notebook, which asks for the modules 0..15 with 64 pulses
    per train, the stacked value at index [i] is the average of module [i]. *)
Theorem C3_stack_keeps_module_order `{!Session} run :
  run_valid run →
  (∀ ppt mods s parts s' stacked (i : nat) modno,
     for_each (λ m, average_module m run ppt) mods s = (inr parts, s') →
     da_stack parts = inr stacked →
     mods !! i = Some modno →
     ∃ avg,
       parts !! i = Some avg ∧
       fst (average_module modno run ppt s) = inr avg ∧
       nd_getitem0 (Z.of_nat i) (eval (graph stacked))
       = Some (eval (graph avg))) ∧
  (∀ s stacked s' i,
     all_average run s = (inr stacked, s') →
     0 ≤ i < 16 →
     ∃ avg,
       fst (average_module i run 64 s) = inr avg ∧
       nd_getitem0 i (eval (graph stacked)) = Some (eval (graph avg))).
Proof.
  intros Hrun. split.
  - intros ppt mods s parts s' stacked i modno Hparts Hstack Hi.
    by eapply stacked_getitem0.
  - intros s stacked s' i Hstacked Hi.
    rewrite all_average_unfold in Hstacked.
    destruct (stacked_averages_inr _ _ _ _ _ _ Hstacked)
      as (parts & Hparts & Hstack).
    destruct (stacked_getitem0 run 64 (range 16) s parts s' stacked
                (Z.to_nat i) i Hrun Hparts Hstack) as (avg & _ & Havg & Hitem).
    + unfold range. rewrite lookup_seqZ_lt by lia. f_equal. lia.
    + exists avg. split; [done|]. by rewrite Z2Nat.id in Hitem by lia.
Qed.

Lemma C3_stack_keeps_module_order_witness :
  ∃ avg,
    fst (average_module 5 recorded_run 64 start) = inr avg ∧
    nd_getitem0 5 (eval (graph recorded_stacked)) = Some (eval (graph avg)).
Proof.
  destruct (C3_stack_keeps_module_order recorded_run recorded_run_valid)
    as [_ Hnotebook].
  apply (Hnotebook start recorded_stacked recorded_state 5).
  - reflexivity.
  - lia.
Defined.

(** C4 (as amended).  The end-to-end scenario on the images the code is
    written for: 2 modules, 4 trains of 2 pulses, images of 512 x 128
    pixels, frame [k] of module 0 filled with [k + 1] and frame [k] of module
    1 with [k + 9].  The reshape groups the frames of module 0 into the
    trains [[1,2],[3,4],[5,6],[7,8]]; the mean over the trains is 4.0 at
    every pixel of pulse 0 and 5.0 at every pixel of pulse 1 (12.0 and 13.0
    for module 1); the stacked result has shape (2, 2, 512, 128) and holds
    these per-module averages in module order. *)
Theorem C4_scenario `{!Session} :
  for_each (λ i, average_module i scenario_run 2) (range 2) start
  = (inr [scenario_average 1; scenario_average 9],
     {| console := ["array shape: (8, 1, 512, 128)";
                    "Reshaped to: (4, 2, 512, 128)"];
        evaluations := 0 |}) ∧
  da_stack [scenario_average 1; scenario_average 9] = inr scenario_stacked ∧
  dshape scenario_stacked = [2; 2; 512; 128] ∧
  shape (eval (graph scenario_stacked)) = [2; 2; 512; 128] ∧
  (∀ t p r c, 0 ≤ t < 4 → 0 ≤ p < 2 → 0 ≤ r < 512 → 0 ≤ c < 128 →
     item (eval (Reshape [4; 2; 512; 128]
                   (GetItemAxis1 1 (graph (da_from_array
                                             (filled_frames (seqZ 1 8)))))))
          [t; p; r; c]
     = Some (SInt (1 + 2 * t + p))) ∧
  (∀ p r c, 0 ≤ p < 2 → 0 ≤ r < 512 → 0 ≤ c < 128 →
     item (eval (graph (scenario_average 1))) [p; r; c] = Some (f32 (4 + p)) ∧
     item (eval (graph (scenario_average 9))) [p; r; c] = Some (f32 (12 + p))) ∧
  (∀ m p r c, 0 ≤ m < 2 → 0 ≤ p < 2 → 0 ≤ r < 512 → 0 ≤ c < 128 →
     item (eval (graph scenario_stacked)) [m; p; r; c]
     = Some (f32 (4 + 8 * m + p))).
Proof.
  assert (∀ first p r c, (first = 1 ∨ first = 9) →
            0 ≤ p < 2 → 0 ≤ r < 512 → 0 ≤ c < 128 →
            item (eval (graph (scenario_average first))) [p; r; c]
            = Some (f32 (first + 3 + p))) as Hitem.
  { intros first p r c Hfirst Hp Hr Hc.
    rewrite scenario_average_item by (destruct Hfirst; lia).
    assert (p = 0 ∨ p = 1) as [-> | ->] by lia;
      destruct Hfirst as [-> | ->]; vm_compute; reflexivity. }
  split_and!.
  - reflexivity.
  - reflexivity.
  - reflexivity.
  - reflexivity.
  - intros t p r c Ht Hp Hr Hc.
    rewrite (train_view (da_from_array (filled_frames (seqZ 1 8))) 2 4 1);
      [|apply valid_from_array, wf_filled_frames|done|lia..].
    cbn [eval graph da_from_array da_from_chunks].
    rewrite item_filled_frames by (rewrite ?length_seqZ; lia).
    rewrite lookup_seqZ_lt by lia. cbn [fmap option_fmap option_map].
    do 2 f_equal. lia.
  - intros p r c Hp Hr Hc. split.
    + rewrite Hitem by auto. do 2 f_equal.
    + rewrite Hitem by auto. do 2 f_equal.
  - intros m p r c Hm Hp Hr Hc.
    assert (∃ avg, [scenario_average 1; scenario_average 9] !! Z.to_nat m
                   = Some avg ∧
                   item (eval (graph avg)) [p; r; c]
                   = Some (f32 (4 + 8 * m + p))) as (avg & Havg & <-).
    { assert (m = 0 ∨ m = 1) as [-> | ->] by lia; eexists; (split; [reflexivity|]);
        rewrite Hitem by auto; do 2 f_equal. }
    apply item_getitem0.
    change (eval (graph scenario_stacked))
      with (nd_stack (eval <$> (graph <$> [scenario_average 1;
                                           scenario_average 9]))).
    replace m with (Z.of_nat (Z.to_nat m)) at 1 by lia.
    apply (nd_stack_getitem0 _ [2; 512; 128] Float32).
    + apply (mod_averages_sized scenario_run 2 (range 2) start _
               {| console := ["array shape: (8, 1, 512, 128)";
                              "Reshaped to: (4, 2, 512, 128)"];
                  evaluations := 0 |}); [apply scenario_run_valid|reflexivity].
    + by rewrite !list_lookup_fmap, Havg.
Qed.

(** C4 fails as stated: with images of one pixel the first per-module
    average already raises at the reshape, so no result is stacked. *)
Lemma C4_one_pixel_rejected :
  get_dask_array one_pixel_run (module_source 0) "image.data"
  = inr (da_from_array (int_array [8; 1; 1; 1] [1; 2; 3; 4; 5; 6; 7; 8])) ∧
  average_module 0 one_pixel_run 2 start
  = (inl (BadIndex (S754_finite false 4503599627370496 (-66))), start) ∧
  stacked_averages one_pixel_run 2 (range 2) start
  = (inl (BadIndex (S754_finite false 4503599627370496 (-66))), start).
Proof. split_and!; reflexivity. Qed.

(** C5 (as amended).  The per-module averaging step evaluates nothing and,
    for every module index other than 0, leaves the state as it was.  For
    module index 0 a successful call appends exactly two lines to the
    console: the shape of the sliced array, which is the shape of the run's
    array with its second axis cut to width (at most) 1, and the shape
    (trains, pulses_per_train, 512, 128) it is reshaped to, with as many
    elements; a call that raises prints nothing.  What a successful call
    returns is the description of a deferred computation: the graph of the
    run's array extended by the slice, the reshape and the mean. *)
Theorem C5_only_module_0_prints `{!Session} modno run ppt s :
  evaluations (snd (average_module modno run ppt s)) = evaluations s ∧
  (if bool_decide (modno = 0) then
     match fst (average_module modno run ppt s) with
     | inr avg =>
         ∃ raw d0 d1 rest trains,
           get_dask_array run (module_source modno) "image.data" = inr raw ∧
           dshape raw = d0 :: d1 :: rest ∧
           trains * (ppt * frame_pixels)
           = size (d0 :: slice_len 1 d1 :: rest) ∧
           snd (average_module modno run ppt s)
           = {| console := console s ++
                  ["array shape: "
                     +:+ repr_tuple (d0 :: slice_len 1 d1 :: rest);
                   "Reshaped to: " +:+ repr_tuple [trains; ppt; 512; 128]];
                evaluations := evaluations s |}
     | inl _ => snd (average_module modno run ppt s) = s
     end
   else snd (average_module modno run ppt s) = s) ∧
  match fst (average_module modno run ppt s) with
  | inr avg =>
      ∃ raw trains,
        get_dask_array run (module_source modno) "image.data" = inr raw ∧
        avg = averaged ppt trains raw
  | inl _ => True
  end.
Proof.
  split_and!.
  - rewrite average_module_unfold.
    destruct (get_data_counts _ _ _); [done|].
    destruct (get_dask_array _ _ _) as [|raw]; [done|].
    destruct (da_getitem_axis1 1 raw) as [|arr]; [done|].
    destruct (da_reshape _ arr) as [|arr_trains]; [done|].
    cbn [snd]. unfold reported. by destruct (bool_decide _).
  - destruct (bool_decide (modno = 0)) eqn:Hmod.
    + apply bool_decide_eq_true in Hmod as ->. apply average_module_0_state.
    + apply bool_decide_eq_false in Hmod. by apply average_module_quiet.
  - destruct (fst (average_module modno run ppt s)) as [|avg] eqn:E; [done|].
    destruct (average_module_inr _ _ _ _ _ E)
      as (_ & raw & _ & _ & _ & trains & _ & Hraw & _ & _ & ->).
    by exists raw, trains.
Qed.

(** C5 fails as stated: for module 0 of the recorded run the call prints
    the two lines the notebook shows under cell 13. *)
Lemma C5_module_0_prints :
  console start = [] ∧
  console (snd (average_module 0 recorded_run 64 start))
  = ["array shape: (191872, 1, 512, 128)";
     "Reshaped to: (2998, 64, 512, 128)"].
Proof. split; reflexivity. Qed.

(** C6.  Whatever the element type of the run's array, the result of the
    per-module averaging step has element type float32, and so has its
    value.  The number of trains is the one that, with [pulses_per_train]
    images of 512 x 128 pixels each, makes up the elements of the sliced
    array; every element of the value is a binary32 quotient: the sum made
    by binary32 additions over the values of one pulse and pixel in all
    these trains, each cast to binary32 and each added once, in the chunks
    of the session, divided by the count of these trains, added up in
    binary32 over the same chunks. *)
Theorem C6_float32_accumulation `{!Session} modno run ppt s avg :
  run_valid run →
  fst (average_module modno run ppt s) = inr avg →
  ddtype avg = Float32 ∧
  dtype_of (eval (graph avg)) = Float32 ∧
  ∃ raw d0 d1 rest trains,
    get_dask_array run (module_source modno) "image.data" = inr raw ∧
    dshape raw = d0 :: d1 :: rest ∧
    trains * (ppt * frame_pixels) = size (d0 :: slice_len 1 d1 :: rest) ∧
    plan_rows (mean_plan (by_trains ppt trains raw)) = Z.to_nat trains ∧
    ∀ j, 0 ≤ j < ppt * frame_pixels →
      length (reduced_column (eval (graph (by_trains ppt trains raw)))
                trains [ppt; 512; 128] j) = Z.to_nat trains ∧
      data (eval (graph avg)) !! Z.to_nat j
      = Some (SFloat
                (SFdiv 24 128
                   (plan_sum (SFadd 24 128) (S754_zero false)
                      (mean_plan (by_trains ppt trains raw))
                      (cast_float Float32 <$>
                       reduced_column (eval (graph (by_trains ppt trains raw)))
                         trains [ppt; 512; 128] j))
                   (plan_count Float32 (mean_plan (by_trains ppt trains raw))))).
Proof.
  intros Hrun Havg.
  destruct (average_module_inr_sized _ _ _ _ _ Hrun Havg)
    as (_ & _ & Hdt & _ & Hdd).
  split_and!; [done..|].
  destruct (average_module_inr _ _ _ _ _ Havg)
    as (counts & raw & d0 & d1 & rest & trains & _ & Hraw & Hshape & Htrains & ->).
  apply infer_trains_inr in Htrains as (Htrains & _ & _).
  exists raw, d0, d1, rest, trains. split_and!; [done..| |].
  { by rewrite mean_plan_rows. }
  intros j Hj. split; [apply length_reduced_column|].
  assert (1 ≤ ppt) as Hppt by (unfold frame_pixels in Hj; lia).
  destruct (by_trains_valid _ _ _ _ _ _ (Hrun _ _ _ Hraw) Hshape Hppt Htrains)
    as (Hnonneg & Hwf & Hsh & _).
  cbn [dshape by_trains] in Hsh.
  change (eval (graph (averaged ppt trains raw)))
    with (nd_mean_axis0 Float32 (mean_plan (by_trains ppt trains raw))
            (eval (graph (by_trains ppt trains raw)))).
  rewrite (lookup_mean_axis0 _ Float32 _ _ _ Hwf Hsh).
  - reflexivity.
  - rewrite !size_cons. change (size []) with 1. unfold frame_pixels in Hj. lia.
Qed.

Lemma C6_float32_accumulation_witness :
  ddtype (scenario_average 1) = Float32 ∧
  dtype_of (eval (graph (scenario_average 1))) = Float32 ∧
  ∃ raw d0 d1 rest trains,
    get_dask_array scenario_run (module_source 0) "image.data" = inr raw ∧
    dshape raw = d0 :: d1 :: rest ∧
    trains * (2 * frame_pixels) = size (d0 :: slice_len 1 d1 :: rest) ∧
    plan_rows (mean_plan (by_trains 2 trains raw)) = Z.to_nat trains ∧
    ∀ j, 0 ≤ j < 2 * frame_pixels →
      length (reduced_column (eval (graph (by_trains 2 trains raw)))
                trains [2; 512; 128] j) = Z.to_nat trains ∧
      data (eval (graph (scenario_average 1))) !! Z.to_nat j
      = Some (SFloat
                (SFdiv 24 128
                   (plan_sum (SFadd 24 128) (S754_zero false)
                      (mean_plan (by_trains 2 trains raw))
                      (cast_float Float32 <$>
                       reduced_column (eval (graph (by_trains 2 trains raw)))
                         trains [2; 512; 128] j))
                   (plan_count Float32 (mean_plan (by_trains 2 trains raw))))).
Proof.
  apply (C6_float32_accumulation 0 scenario_run 2 start (scenario_average 1)).
  - apply scenario_run_valid.
  - reflexivity.
Defined.

(** C8.  When the run's lazy arrays have truthful metadata and the run
    delivers, for each module asked for, frames of 512 x 128 pixels in whole
    trains, every per-module average is a lazy array with the three axes
    (pulse, row, column) that evaluates to a well-formed array of that shape
    with [pulses_per_train * 512 * 128] elements, and the stacked result is
    a lazy array with the four axes (module, pulse, row, column), its leading
    dimension being the number of modules, that evaluates to a well-formed
    array of that shape holding the elements of all the modules. *)
Theorem C8_shapes `{!Session} run ppt mods s :
  1 ≤ ppt → mods ≠ [] → run_valid run → Forall (module_ready run ppt) mods →
  ∃ parts stacked s',
    for_each (λ i, average_module i run ppt) mods s = (inr parts, s') ∧
    length parts = length mods ∧
    Forall (λ avg, valid avg ∧
                   dshape avg = [ppt; 512; 128] ∧
                   Z.of_nat (length (data (eval (graph avg))))
                   = ppt * frame_pixels) parts ∧
    stacked_averages run ppt mods s = (inr stacked, s') ∧
    valid stacked ∧
    dshape stacked = [Z.of_nat (length mods); ppt; 512; 128] ∧
    Z.of_nat (length (data (eval (graph stacked))))
    = Z.of_nat (length mods) * (ppt * frame_pixels).
Proof.
  intros Hppt Hmods Hrun Hready.
  destruct (for_each_all_inr (λ i, average_module i run ppt) mods s)
    as (parts & s' & Hparts).
  { eapply Forall_impl; [exact Hready|].
    intros i Hi si. by apply module_ready_succeeds. }
  pose proof (for_each_inr _ _ _ _ _ Hparts) as Hall.
  destruct (mod_averages_stackable _ _ _ _ _ _ Hmods Hparts)
    as (x & parts' & Hcons & Hlen & Hmeta & Hstack).
  pose proof (mod_averages_values _ _ _ _ _ _ Hrun Hppt Hparts) as Hvalues.
  destruct (nd_stack_wf (eval <$> (graph <$> parts)) [ppt; 512; 128])
    as [Hwf Hshape].
  { rewrite Hcons. done. }
  { eapply Forall_impl; [exact Hvalues|]. by intros q (? & ? & ?). }
  rewrite !length_fmap, Hlen in Hshape.
  eexists parts, _, s'. split_and!; [done|done| | | | |].
  - apply Forall2_Forall_r with (1 := Hall), Forall_true.
    intros i avg [si Havg].
    destruct (average_module_inr_valid _ _ _ _ _ Hrun Hppt Havg)
      as (Hvalid & Hds & _).
    split_and!; [done..|].
    destruct Hvalid as ([_ Hbuf] & Hsh & _). rewrite Hbuf, Hsh, Hds.
    rewrite !size_cons. change (size []) with 1. unfold frame_pixels. lia.
  - unfold stacked_averages, mbind, M_bind. rewrite Hparts.
    unfold lift. by rewrite Hstack.
  - split_and!; cbn [graph eval dshape ddtype]; [exact Hwf|exact Hshape|].
    rewrite Hcons in Hvalues |- *. rewrite !fmap_cons in Hvalues |- *.
    by apply Forall_cons in Hvalues as [(_ & _ & ?) _].
  - done.
  - cbn [graph eval]. destruct Hwf as [_ Hbuf]. rewrite Hbuf, Hshape.
    rewrite !size_cons. change (size []) with 1. unfold frame_pixels. lia.
Qed.

Lemma C8_shapes_witness :
  ∃ parts stacked s',
    for_each (λ i, average_module i recorded_run 64) (range 16) start
    = (inr parts, s') ∧
    length parts = length (range 16) ∧
    Forall (λ avg, valid avg ∧
                   dshape avg = [64; 512; 128] ∧
                   Z.of_nat (length (data (eval (graph avg))))
                   = 64 * frame_pixels) parts ∧
    stacked_averages recorded_run 64 (range 16) start = (inr stacked, s') ∧
    valid stacked ∧
    dshape stacked = [Z.of_nat (length (range 16)); 64; 512; 128] ∧
    Z.of_nat (length (data (eval (graph stacked))))
    = Z.of_nat (length (range 16)) * (64 * frame_pixels).
Proof.
  apply (C8_shapes recorded_run 64 (range 16) start).
  - lia.
  - discriminate.
  - apply recorded_run_valid.
  - apply recorded_run_ready.
Defined.

(** C9.  Two runs that deliver the same lazy array for the module and
    return frame counts, whatever these are, give the same per-module
    average (and the same console output). *)
Theorem C9_counts_do_not_matter `{!Session}
    modno run1 run2 ppt s counts1 counts2 :
  get_data_counts run1 (module_source modno) "image.data" = inr counts1 →
  get_data_counts run2 (module_source modno) "image.data" = inr counts2 →
  get_dask_array run1 (module_source modno) "image.data"
  = get_dask_array run2 (module_source modno) "image.data" →
  average_module modno run1 ppt s = average_module modno run2 ppt s.
Proof.
  intros H1 H2 Harr. rewrite !average_module_unfold. by rewrite H1, H2, Harr.
Qed.

Lemma C9_counts_do_not_matter_witness :
  average_module 0 two_frame_run 1 start
  = average_module 0 (with_counts [(7, 3); (8, 0)] two_frame_run) 1 start.
Proof.
  apply (C9_counts_do_not_matter 0 two_frame_run
           (with_counts [(7, 3); (8, 0)] two_frame_run) 1 start
           [(10000, 1); (10001, 1)] [(7, 3); (8, 0)]).
  - reflexivity.
  - reflexivity.
  - reflexivity.
Defined.

(** C10.  For an input array whose rows or columns differ from 512 x 128,
    the reshape fails, and with it [average_module], unless the element
    count of the sliced array happens to be a multiple of
    [pulses_per_train * 512 * 128]; and when the call does return, what it
    returns has the shape (pulses_per_train, 512, 128), which is not the
    shape of the per-pulse images of the input. *)
Theorem C10_other_geometry_rejected `{!Session}
    modno run ppt frames d1 rows cols raw counts s :
  get_data_counts run (module_source modno) "image.data" = inr counts →
  get_dask_array run (module_source modno) "image.data" = inr raw →
  dshape raw = [frames; d1; rows; cols] →
  rows ≠ 512 ∨ cols ≠ 128 →
  (¬ (ppt * 512 * 128 | frames * slice_len 1 d1 * rows * cols) →
   ∃ e, average_module modno run ppt s = (inl e, s) ∧ reshape_error e) ∧
  (∀ avg, fst (average_module modno run ppt s) = inr avg →
     (ppt * 512 * 128 | frames * slice_len 1 d1 * rows * cols) ∧
     dshape avg = [ppt; 512; 128] ∧
     dshape avg ≠ [ppt; rows; cols]).
Proof.
  intros Hcounts Hraw Hshape Hgeometry.
  pose proof (average_module_eq _ _ ppt _ _ _ _ _ Hcounts Hraw Hshape s) as Heq.
  rewrite !size_cons in Heq. change (size []) with 1 in Heq.
  replace (frames * (slice_len 1 d1 * (rows * (cols * 1))))
    with (frames * slice_len 1 d1 * rows * cols) in Heq by lia.
  replace (ppt * 512 * 128) with (ppt * frame_pixels)
    by (unfold frame_pixels; lia).
  split.
  - intros Hnofactor.
    destruct (infer_trains_fails _ _ Hnofactor) as (e & He & Herr).
    exists e. by rewrite Heq, He.
  - intros avg Havg. rewrite Heq in Havg.
    destruct (infer_trains _ ppt) as [e|trains] eqn:Htrains; [done|].
    cbn in Havg. injection Havg as <-.
    apply infer_trains_inr in Htrains as (Htrains & _ & _).
    split_and!; [by exists trains|done|].
    cbn [averaged dshape]. intros [= ? ?]. lia.
Qed.

Lemma C10_other_geometry_rejected_witness :
  ∃ e, average_module 0 small_image_run 2 start = (inl e, start) ∧
       reshape_error e.
Proof.
  destruct (C10_other_geometry_rejected 0 small_image_run 2 4 1 2 3
              (da_from_array (int_array [4; 1; 2; 3] (seqZ 1 24)))
              [(10000, 2); (10001, 2)] start) as [Hfails _].
  - reflexivity.
  - reflexivity.
  - reflexivity.
  - left. lia.
  - apply Hfails. intros [k Hk]. change (slice_len 1 1) with 1 in Hk. lia.
Defined.

(** * Further properties of the notebook's code *)

(** ** When the per-module step succeeds *)

(** X1.  For a module whose array has frames of 512 x 128 pixels (fewer
    than [2^53] elements after the slice) and for [pulses_per_train >= 1],
    [average_module] returns a result exactly when the run can tell the
    frame counts of the module's source and the frames come in whole trains;
    so a failing [get_data_counts] breaks the call although the counts are
    never used. *)
Theorem X1_average_module_succeeds_iff `{!Session}
    modno run ppt frames d1 raw s :
  1 ≤ ppt → 1 ≤ d1 → 0 ≤ frames → frames * frame_pixels < 2 ^ 53 →
  get_dask_array run (module_source modno) "image.data" = inr raw →
  dshape raw = [frames; d1; 512; 128] →
  (∃ avg, fst (average_module modno run ppt s) = inr avg) ↔
  (∃ counts,
     get_data_counts run (module_source modno) "image.data" = inr counts) ∧
  (ppt | frames).
Proof.
  intros Hppt Hd1 Hframes Hsize Hraw Hshape. split.
  - intros [avg Havg].
    destruct (average_module_inr _ _ _ _ _ Havg)
      as (counts & raw' & d0 & d1' & rest & trains & Hcounts & Hraw' & Hshape'
          & Htrains & _).
    rewrite Hraw in Hraw'. injection Hraw' as <-.
    rewrite Hshape in Hshape'. injection Hshape' as <- <- <-.
    split; [by exists counts|].
    apply infer_trains_inr in Htrains as (Htrains & _ & _).
    rewrite slice_len_1, !size_cons in Htrains by done.
    change (size []) with 1 in Htrains. unfold frame_pixels in Htrains.
    exists trains. lia.
  - intros [[counts Hcounts] [k ->]].
    eexists. erewrite average_module_trains; [done..| |done|done|done].
    unfold frame_pixels in Hsize. nia.
Qed.

Lemma X1_average_module_succeeds_iff_witness :
  (∃ avg, fst (average_module 0 two_frame_run 1 start) = inr avg) ↔
  (∃ counts,
     get_data_counts two_frame_run (module_source 0) "image.data" = inr counts) ∧
  (1 | 2).
Proof.
  apply (X1_average_module_succeeds_iff 0 two_frame_run 1 2 1
           (da_from_array (filled_frames [5; 7])) start).
  - lia.
  - lia.
  - lia.
  - done.
  - reflexivity.
  - reflexivity.
Defined.

(** ** What the slice lets through *)

Lemma nd_mean_axis0_ext dt p a b d0 rest :
  shape a = d0 :: rest → shape b = d0 :: rest → data a = data b →
  nd_mean_axis0 dt p a = nd_mean_axis0 dt p b.
Proof.
  intros Ha Hb Hdata. unfold nd_mean_axis0. by rewrite Ha, Hb, Hdata.
Qed.

(** Two arrays of frames of 512 x 128 pixels that agree at index 0 of the
    placeholder axis have the same slice [[:, :1]]. *)
Lemma slice_of_agreeing_arrays a1 a2 frames d1 d2 :
  wf a1 → wf a2 → 1 ≤ d1 → 1 ≤ d2 →
  shape a1 = [frames; d1; 512; 128] → shape a2 = [frames; d2; 512; 128] →
  (∀ f r c, 0 ≤ f < frames → 0 ≤ r < 512 → 0 ≤ c < 128 →
     item a1 [f; 0; r; c] = item a2 [f; 0; r; c]) →
  data (nd_getitem_axis1 1 a1) = data (nd_getitem_axis1 1 a2).
Proof.
  intros Hwf1 Hwf2 Hd1 Hd2 Hsh1 Hsh2 Hagree.
  pose proof (wf_getitem_axis1 a1 1 _ _ _ Hwf1 Hsh1) as [Hpos1 Hlen1].
  pose proof (wf_getitem_axis1 a2 1 _ _ _ Hwf2 Hsh2) as [_ Hlen2].
  rewrite (shape_getitem_axis1 a1 1 _ _ _ Hsh1) in Hlen1, Hpos1.
  rewrite (shape_getitem_axis1 a2 1 _ _ _ Hsh2) in Hlen2.
  rewrite slice_len_1 in Hlen1, Hlen2, Hpos1 by done.
  rewrite !size_cons in Hlen1, Hlen2. change (size []) with 1 in Hlen1, Hlen2.
  apply Forall_cons in Hpos1 as [Hframes _].
  apply (list_eq_same_length _ _ (Z.to_nat (frames * 65536))); [lia..|].
  intros i x y Hi Hx Hy.
  set (n := Z.of_nat i). set (f := n / 65536). set (j := n mod 65536).
  set (r := j / 128). set (c := j mod 128).
  assert (n = 65536 * f + j) as Hn by (apply Z.div_mod; lia).
  assert (0 ≤ j < 65536) as Hj by (apply Z.mod_pos_bound; lia).
  assert (j = 128 * r + c) as Hjrc by (apply Z.div_mod; lia).
  assert (0 ≤ c < 128) as Hc by (apply Z.mod_pos_bound; lia).
  assert (0 ≤ f < frames ∧ 0 ≤ r < 512) as [Hf Hr] by (unfold n in *; lia).
  pose proof (lookup_getitem_axis1 a1 1 _ _ _ Hwf1 Hsh1 f j) as H1.
  pose proof (lookup_getitem_axis1 a2 1 _ _ _ Hwf2 Hsh2 f j) as H2.
  rewrite slice_len_1 in H1, H2 by done.
  change (size [512; 128]) with 65536 in H1, H2.
  replace (Z.to_nat (f * (1 * 65536) + j)) with i in H1, H2 by (unfold n in *; lia).
  rewrite H1 in Hx by lia. rewrite H2 in Hy by lia.
  specialize (Hagree f r c Hf Hr Hc).
  rewrite (item_4d _ _ _ _ _ _ _ _ _ Hsh1), (item_4d _ _ _ _ _ _ _ _ _ Hsh2)
    in Hagree by lia.
  replace (Z.to_nat (((f * d1 + 0) * 512 + r) * 128 + c))
    with (Z.to_nat (f * (d1 * 65536) + j)) in Hagree by lia.
  replace (Z.to_nat (((f * d2 + 0) * 512 + r) * 128 + c))
    with (Z.to_nat (f * (d2 * 65536) + j)) in Hagree by lia.
  congruence.
Qed.

(** X3.  Only index 0 of the placeholder axis reaches the result: for two
    runs whose arrays for the module have frames of 512 x 128 pixels, the
    same number of frames, any widths of the placeholder axis and the same
    values at index 0 of that axis, and whose trains the session groups
    alike when it adds them, [average_module] either raises the same error
    for both or returns lazy arrays with the same value. *)
Theorem X3_only_index_0_of_placeholder_axis `{!Session}
    modno run1 run2 ppt frames d1 d2 raw1 raw2 counts1 counts2 s :
  get_data_counts run1 (module_source modno) "image.data" = inr counts1 →
  get_data_counts run2 (module_source modno) "image.data" = inr counts2 →
  get_dask_array run1 (module_source modno) "image.data" = inr raw1 →
  get_dask_array run2 (module_source modno) "image.data" = inr raw2 →
  valid raw1 → valid raw2 →
  dshape raw1 = [frames; d1; 512; 128] →
  dshape raw2 = [frames; d2; 512; 128] →
  1 ≤ d1 → 1 ≤ d2 →
  (∀ trains, mean_plan (by_trains ppt trains raw1)
             = mean_plan (by_trains ppt trains raw2)) →
  (∀ f r c, 0 ≤ f < frames → 0 ≤ r < 512 → 0 ≤ c < 128 →
     item (eval (graph raw1)) [f; 0; r; c]
     = item (eval (graph raw2)) [f; 0; r; c]) →
  match fst (average_module modno run1 ppt s),
        fst (average_module modno run2 ppt s) with
  | inr avg1, inr avg2 => eval (graph avg1) = eval (graph avg2)
  | inl e1, inl e2 => e1 = e2
  | _, _ => False
  end.
Proof.
  intros Hc1 Hc2 Hr1 Hr2 (Hwf1 & Hsh1 & _) (Hwf2 & Hsh2 & _) Hds1 Hds2
    Hd1 Hd2 Hplan Hagree.
  rewrite (average_module_eq _ _ _ _ _ _ _ _ Hc1 Hr1 Hds1).
  rewrite (average_module_eq _ _ _ _ _ _ _ _ Hc2 Hr2 Hds2).
  rewrite !slice_len_1 by done.
  destruct (infer_trains _ ppt) as [e|trains]; cbn [fst]; [done|].
  cbn [averaged graph eval]. rewrite Hplan.
  rewrite Hds1 in Hsh1. rewrite Hds2 in Hsh2.
  apply (nd_mean_axis0_ext _ _ _ _ trains [ppt; 512; 128]); [done..|].
  cbn [nd_reshape data].
  by apply (slice_of_agreeing_arrays _ _ frames d1 d2).
Qed.

Lemma X3_only_index_0_of_placeholder_axis_witness :
  eval (graph (averaged 1 2 (da_from_array (layered_frames 2 [7; 1; 2]))))
  = eval (graph (averaged 1 2 (da_from_array (full [2; 1; 512; 128] 7)))).
Proof.
  apply (X3_only_index_0_of_placeholder_axis 0 wide_axis_run narrow_axis_run
           1 2 3 1
           (da_from_array (layered_frames 2 [7; 1; 2]))
           (da_from_array (full [2; 1; 512; 128] 7))
           [(10000, 1); (10001, 1)] [(10000, 1); (10001, 1)] start).
  - reflexivity.
  - reflexivity.
  - reflexivity.
  - reflexivity.
  - apply valid_from_array, wf_layered_frames.
  - apply valid_from_array, wf_full. repeat constructor; lia.
  - reflexivity.
  - reflexivity.
  - lia.
  - lia.
  - intros trains. transitivity (in_order (Z.to_nat trains)); reflexivity.
  - intros f r c Hf Hr Hc. cbn [eval graph da_from_array da_from_chunks].
    rewrite (item_layered_frames 2 [7; 1; 2]) by (simpl; lia).
    rewrite item_full; [done|repeat constructor; lia|].
    cbn [in_bounds]. repeat (apply andb_true_intro; split); lia.
Defined.

(** ** How the cells fail and what they leave behind *)

(** X4.  The stacking cell raises exactly when some per-module call raises,
    and then it raises the error of the first module, in the order 0..15,
    whose call raises; [da.stack] itself never raises here. *)
Theorem X4_all_average_fails_iff `{!Session} run s e :
  fst (all_average run s) = inl e ↔
  ∃ k, 0 ≤ k < 16 ∧
       (∀ i, 0 ≤ i < k → ∃ avg, fst (average_module i run 64 s) = inr avg) ∧
       fst (average_module k run 64 s) = inl e.
Proof.
  rewrite all_average_unfold. unfold stacked_averages, mbind, M_bind.
  split.
  - destruct (for_each _ (range 16) s) as [[e'|parts] s1] eqn:Hparts.
    + cbn [fst]. intros [= ->].
      destruct (for_each_inl _ _ _ _ _ Hparts)
        as (n & k & Hn & Hbefore & [sk Hk]).
      apply lookup_seqZ in Hn as [-> Hn].
      exists (0 + Z.of_nat n). split; [lia|]. split.
      * intros i Hi.
        destruct (Hbefore (Z.to_nat i) i) as (si & avg & Havg); [lia| |].
        { unfold range. rewrite lookup_seqZ_lt by lia. f_equal. lia. }
        exists avg. by rewrite (average_module_value _ _ _ s si).
      * by rewrite (average_module_value _ _ _ s sk).
    + assert (range 16 ≠ []) as Hne by done.
      destruct (mod_averages_stackable _ _ _ _ _ _ Hne Hparts)
        as (x & parts' & _ & _ & _ & Hstack).
      unfold lift. rewrite Hstack. cbn [fst]. intros H'. discriminate H'.
  - intros (k & Hk & Hbefore & Hfail).
    assert (fst (for_each (λ i, average_module i run 64) (range 16) s) = inl e)
      as Hfirst.
    { apply (for_each_first_failure _ _ (Z.to_nat k) k).
      - unfold range. rewrite lookup_seqZ_lt by lia. f_equal. lia.
      - intros j i Hj Hi si. apply lookup_seqZ in Hi as [-> _].
        destruct (Hbefore (0 + Z.of_nat j)) as [avg Havg]; [lia|].
        exists avg. by rewrite (average_module_value _ _ _ si s).
      - intros sk. by rewrite (average_module_value _ _ _ sk s). }
    by destruct (for_each _ (range 16) s) as [[e'|parts] s1]; simplify_eq/=.
Qed.

Lemma X4_all_average_fails_iff_witness :
  fst (all_average one_pixel_run start)
  = inl (BadIndex (S754_finite false 4503599627370496 (-71))).
Proof.
  apply (proj2 (X4_all_average_fails_iff one_pixel_run start
                  (BadIndex (S754_finite false 4503599627370496 (-71))))).
  exists 0. split; [lia|]. split; [|reflexivity].
  intros i Hi. lia.
Defined.

(** X5.  Whatever the run, after the three cells the console holds, if the
    call for module 0 succeeded, the two lines with the shape of the sliced
    array of module 0 and the shape it was reshaped to, followed, if the
    three cells succeeded, by the two lines of the [%%time] magic; it is
    unchanged if the call for module 0 raised.  One graph has been evaluated
    if the cells succeeded and none if they raised. *)
Theorem X5_what_the_cells_leave_behind `{!Session} run s :
  match fst (average_module 0 run 64 s) with
  | inr _ =>
      ∃ raw d0 d1 rest trains,
        get_dask_array run (module_source 0) "image.data" = inr raw ∧
        dshape raw = d0 :: d1 :: rest ∧
        trains * (64 * frame_pixels) = size (d0 :: slice_len 1 d1 :: rest) ∧
        console (snd (all_average_arr run s))
        = console s ++
          ["array shape: " +:+ repr_tuple (d0 :: slice_len 1 d1 :: rest);
           "Reshaped to: " +:+ repr_tuple [trains; 64; 512; 128]] ++
          match fst (all_average_arr run s) with
          | inr _ => ["CPU times: " +:+ cpu_times (snd (all_average run s));
                      "Wall time: " +:+ wall_time (snd (all_average run s))]
          | inl _ => []
          end
  | inl _ => console (snd (all_average_arr run s)) = console s
  end ∧
  evaluations (snd (all_average_arr run s))
  = match fst (all_average_arr run s) with
    | inr _ => S (evaluations s)
    | inl _ => evaluations s
    end.
Proof.
  unfold all_average_arr, all_average, mod_averages.
  change (range 16) with (0 :: seqZ 1 15).
  cbn [for_each]. unfold mbind, M_bind, mret, M_ret.
  pose proof (average_module_0_state run 64 s) as H0.
  destruct (average_module 0 run 64 s) as [[e|x] s0]; cbn [fst snd] in *.
  { by subst s0. }
  destruct H0 as (raw & d0 & d1 & rest & trains & Hraw & Hshape & Htrains & ->).
  set (s0 := {| console := _; evaluations := _ |}).
  assert (snd (for_each (λ i, average_module i run 64) (seqZ 1 15) s0) = s0)
    as Hquiet.
  { apply for_each_quiet, Forall_seqZ.
    intros i Hi si. apply average_module_quiet. lia. }
  destruct (for_each _ (seqZ 1 15) s0) as [[e|xs] s1]; cbn [snd] in Hquiet;
    subst s1.
  - split; [|done]. exists raw, d0, d1, rest, trains.
    split_and!; [done..|]. reflexivity.
  - unfold lift, timed, compute.
    destruct (da_stack (x :: xs)) as [e|stacked]; cbn [fst snd].
    + split; [|done]. exists raw, d0, d1, rest, trains.
      split_and!; [done..|]. reflexivity.
    + split; [|done]. exists raw, d0, d1, rest, trains.
      split_and!; [done..|]. cbn [console s0]. by rewrite <-app_assoc.
Qed.

(** ** What the evaluation delivers *)

(** X6.  What cell 14 displays is what cell 16 delivers: on a run whose
    lazy arrays have truthful metadata, the stacked lazy array has shape
    (16, 64, 512, 128) and element type float32, and so has the array it
    evaluates to, whose buffer holds exactly 16 x 64 x 512 x 128 elements. *)
Theorem X6_displayed_metadata_is_truthful `{!Session} run s stacked s' :
  run_valid run →
  all_average run s = (inr stacked, s') →
  dshape stacked = [16; 64; 512; 128] ∧
  ddtype stacked = Float32 ∧
  ∃ arr s'',
    all_average_arr run s = (inr arr, s'') ∧
    wf arr ∧
    shape arr = [16; 64; 512; 128] ∧
    dtype_of arr = Float32 ∧
    Z.of_nat (length (data arr)) = 16 * 64 * frame_pixels.
Proof.
  intros Hrun Hstacked.
  pose proof Hstacked as Hcell. rewrite all_average_unfold in Hstacked.
  destruct (stacked_averages_inr _ _ _ _ _ _ Hstacked)
    as (parts & Hparts & Hstack).
  assert (range 16 ≠ []) as Hne by done.
  destruct (mod_averages_stackable _ _ _ _ _ _ Hne Hparts)
    as (x & parts' & Hcons & Hlen & Hmeta & Hstack').
  rewrite Hstack' in Hstack. injection Hstack as <-.
  pose proof (mod_averages_values run 64 (range 16) s parts s' Hrun
                ltac:(lia) Hparts) as Hvalues.
  destruct (nd_stack_wf (eval <$> (graph <$> parts)) [64; 512; 128])
    as [Hwf Hshape].
  { rewrite Hcons. done. }
  { eapply Forall_impl; [exact Hvalues|]. by intros q (? & ? & ?). }
  rewrite !length_fmap, Hlen in Hshape.
  split_and!; [done..|].
  eexists _, _. split_and!.
  - unfold all_average_arr, mbind, M_bind. rewrite Hcell. reflexivity.
  - exact Hwf.
  - exact Hshape.
  - cbn [graph eval]. rewrite Hcons in Hvalues |- *.
    rewrite !fmap_cons in Hvalues |- *.
    by apply Forall_cons in Hvalues as [(_ & _ & ?) _].
  - destruct Hwf as [_ Hbuf]. cbn [graph eval]. rewrite Hbuf, Hshape.
    rewrite !size_cons. reflexivity.
Qed.

Lemma X6_displayed_metadata_is_truthful_witness :
  dshape recorded_stacked = [16; 64; 512; 128] ∧
  ddtype recorded_stacked = Float32 ∧
  ∃ arr s'',
    all_average_arr recorded_run start = (inr arr, s'') ∧
    wf arr ∧
    shape arr = [16; 64; 512; 128] ∧
    dtype_of arr = Float32 ∧
    Z.of_nat (length (data arr)) = 16 * 64 * frame_pixels.
Proof.
  apply (X6_displayed_metadata_is_truthful recorded_run start recorded_stacked
           recorded_state).
  - apply recorded_run_valid.
  - reflexivity.
Defined.

(** X7.  End to end: when the run's lazy arrays have truthful metadata and
    the run delivers, for each of the modules 0..15, frames of 512 x 128
    pixels in whole trains of 64 pulses, the three cells succeed and the
    element (module, pulse, row, column) of the array they deliver is the
    float32 mean, over all the trains of that module (as many as its frame
    count holds), of the values of that pixel at that pulse, added in the
    grouping of the session. *)
Theorem X7_every_element_is_a_per_pulse_mean `{!Session} run s :
  run_valid run →
  Forall (module_ready run 64) (range 16) →
  ∃ arr s',
    all_average_arr run s = (inr arr, s') ∧
    ∀ m p r c, 0 ≤ m < 16 → 0 ≤ p < 64 → 0 ≤ r < 512 → 0 ≤ c < 128 →
      ∃ raw trains d1 vs,
        get_dask_array run (module_source m) "image.data" = inr raw ∧
        dshape raw = [trains * 64; d1; 512; 128] ∧
        0 ≤ trains ∧
        pulse_values (eval (graph raw)) 64 trains p r c = Some vs ∧
        length vs = Z.to_nat trains ∧
        item arr [m; p; r; c]
        = Some (mean_by Float32 (mean_plan (by_trains 64 trains raw)) vs).
Proof.
  intros Hrun Hready.
  destruct (for_each_all_inr (λ i, average_module i run 64) (range 16) s)
    as (parts & s1 & Hparts).
  { eapply Forall_impl; [exact Hready|].
    intros i Hi si. by apply module_ready_succeeds. }
  assert (range 16 ≠ []) as Hne by done.
  destruct (mod_averages_stackable _ _ _ _ _ _ Hne Hparts)
    as (x & parts' & Hcons & Hlen & Hmeta & Hstack).
  eexists _, _. split.
  { unfold all_average_arr, all_average, mod_averages, mbind, M_bind.
    rewrite Hparts. unfold lift. rewrite Hstack. reflexivity. }
  intros m p r c Hm Hp Hr Hc. cbn [graph eval].
  pose proof (for_each_inr _ _ _ _ _ Hparts) as Hall.
  assert (range 16 !! Z.to_nat m = Some m) as Hlookup.
  { unfold range. rewrite lookup_seqZ_lt by lia. f_equal. lia. }
  destruct (Forall2_lookup_l _ _ _ _ _ Hall Hlookup) as (avg & Havg & [si Hsi]).
  pose proof (proj1 (Forall_lookup _ _) Hready _ _ Hlookup)
    as (counts & raw & frames & d1 & Hcounts & Hraw & Hshape & Hd1 & [k ->]
        & Hframes).
  rewrite (average_module_trains m run 64 k d1 raw counts si ltac:(lia) Hd1
             ltac:(lia) Hcounts Hraw Hshape) in Hsi.
  cbn [fst] in Hsi. injection Hsi as <-.
  pose proof (Hrun _ _ _ Hraw) as Hvalid.
  destruct (mean_over_trains raw 64 k d1 Hvalid Hshape ltac:(lia) ltac:(lia)
              Hd1 p r c Hp Hr Hc) as (vs & Hvs & Hvlen & Hitem).
  exists raw, k, d1, vs. split_and!; [done|done|lia|done|done|].
  rewrite <-Hitem. apply item_getitem0.
  replace m with (Z.of_nat (Z.to_nat m)) at 1 by lia.
  apply (nd_stack_getitem0 _ [64; 512; 128] Float32).
  - by apply (mod_averages_sized run 64 (range 16) s parts s1).
  - by rewrite !list_lookup_fmap, Havg.
Qed.

Lemma X7_every_element_is_a_per_pulse_mean_witness :
  ∃ arr s',
    all_average_arr recorded_run start = (inr arr, s') ∧
    ∀ m p r c, 0 ≤ m < 16 → 0 ≤ p < 64 → 0 ≤ r < 512 → 0 ≤ c < 128 →
      ∃ raw trains d1 vs,
        get_dask_array recorded_run (module_source m) "image.data" = inr raw ∧
        dshape raw = [trains * 64; d1; 512; 128] ∧
        0 ≤ trains ∧
        pulse_values (eval (graph raw)) 64 trains p r c = Some vs ∧
        length vs = Z.to_nat trains ∧
        item arr [m; p; r; c]
        = Some (mean_by Float32 (mean_plan (by_trains 64 trains raw)) vs).
Proof.
  apply (X7_every_element_is_a_per_pulse_mean recorded_run start).
  - apply recorded_run_valid.
  - apply recorded_run_ready.
Defined.

(** ** A module without frames *)

(** X9.  Empty input is not rejected: when the sliced array of the module
    has no element (no frame, or an empty placeholder axis) and
    [pulses_per_train] is at least 1, [average_module] succeeds with zero
    trains, and every element of the (pulses_per_train, 512, 128) value of
    its result is NaN, the float32 quotient 0/0. *)
Theorem X9_no_frames_gives_nan `{!Session}
    modno run ppt raw counts d0 d1 rest s :
  1 ≤ ppt →
  get_data_counts run (module_source modno) "image.data" = inr counts →
  get_dask_array run (module_source modno) "image.data" = inr raw →
  valid raw →
  dshape raw = d0 :: d1 :: rest →
  size (d0 :: slice_len 1 d1 :: rest) = 0 →
  fst (average_module modno run ppt s) = inr (averaged ppt 0 raw) ∧
  shape (eval (graph (averaged ppt 0 raw))) = [ppt; 512; 128] ∧
  ∀ p r c, 0 ≤ p < ppt → 0 ≤ r < 512 → 0 ≤ c < 128 →
    item (eval (graph (averaged ppt 0 raw))) [p; r; c] = Some (SFloat S754_nan).
Proof.
  intros Hppt Hcounts Hraw Hvalid Hshape Hempty.
  assert (infer_trains 0 ppt = inr 0) as Hinfer.
  { apply (infer_trains_exact ppt 0); [lia|lia|done]. }
  split_and!; [|done|].
  { by rewrite (average_module_eq _ _ _ _ _ _ _ _ Hcounts Hraw Hshape),
      Hempty, Hinfer. }
  intros p r c Hp Hr Hc.
  destruct (by_trains_valid raw ppt 0 d0 d1 rest Hvalid Hshape Hppt)
    as (_ & Hwf & Hsh & _); [by rewrite Hempty|].
  cbn [dshape by_trains] in Hsh.
  change (eval (graph (averaged ppt 0 raw)))
    with (nd_mean_axis0 Float32 (mean_plan (by_trains ppt 0 raw))
            (eval (graph (by_trains ppt 0 raw)))).
  erewrite item_3d; [|by eapply shape_mean_axis0|done..].
  rewrite (lookup_mean_axis0 _ Float32 _ _ _ Hwf Hsh).
  - unfold mean_by.
    rewrite plan_sum_no_rows, plan_count_no_rows by (by rewrite mean_plan_rows).
    reflexivity.
  - rewrite !size_cons. change (size []) with 1. lia.
Qed.

Lemma X9_no_frames_gives_nan_witness :
  fst (average_module 0 no_frame_run 64 start)
  = inr (averaged 64 0 (da_from_array (full [0; 2; 512; 128] 0))) ∧
  shape (eval (graph (averaged 64 0 (da_from_array (full [0; 2; 512; 128] 0)))))
  = [64; 512; 128] ∧
  ∀ p r c, 0 ≤ p < 64 → 0 ≤ r < 512 → 0 ≤ c < 128 →
    item (eval (graph (averaged 64 0 (da_from_array (full [0; 2; 512; 128] 0)))))
         [p; r; c]
    = Some (SFloat S754_nan).
Proof.
  apply (X9_no_frames_gives_nan 0 no_frame_run 64
           (da_from_array (full [0; 2; 512; 128] 0)) [] 0 2 [512; 128] start).
  - lia.
  - reflexivity.
  - reflexivity.
  - apply valid_from_array, wf_full. repeat constructor; lia.
  - reflexivity.
  - reflexivity.
Defined.

(** ** The sources of the modules *)

Lemma length_string_app (s t : string) :
  String.length (s +:+ t) = (String.length s + String.length t)%nat.
Proof. induction s as [|a s IH]; simpl; [done|]. by rewrite IH. Qed.

Lemma string_app_inj_r (s1 s2 t : string) : s1 +:+ t = s2 +:+ t → s1 = s2.
Proof.
  revert s2. induction s1 as [|a s1 IH]; intros [|b s2] Heq; [done| | |].
  - apply (f_equal String.length) in Heq.
    rewrite !length_string_app in Heq. simpl in Heq. lia.
  - apply (f_equal String.length) in Heq.
    rewrite !length_string_app in Heq. simpl in Heq. lia.
  - simpl in Heq. injection Heq as -> Heq. f_equal. by apply IH.
Qed.

(** X10.  Different module numbers name different sources, so the sixteen
    calls of the comprehension ask the run for sixteen different sources. *)
Theorem X10_modules_have_distinct_sources (i j : Z) :
  i ≠ j → module_source i ≠ module_source j.
Proof.
  intros Hne Heq. apply Hne. unfold module_source in Heq.
  apply (inj (String.app "SPB_DET_AGIPD1M-1/DET/")) in Heq.
  apply string_app_inj_r in Heq.
  by apply (inj pretty) in Heq.
Qed.

Lemma X10_modules_have_distinct_sources_witness :
  module_source 0 ≠ module_source 15.
Proof. apply (X10_modules_have_distinct_sources 0 15). lia. Defined.

(** ** The corner of the result *)

Lemma nd_getitem0_in_bounds a d0 rest i :
  shape a = d0 :: rest → 0 ≤ i < d0 →
  ∃ b, nd_getitem0 i a = Some b ∧ shape b = rest ∧ (wf a → wf b).
Proof.
  intros Hsh Hi. unfold nd_getitem0. rewrite Hsh.
  replace ((0 <=? i) && (i <? d0)) with true by lia.
  eexists. split; [reflexivity|]. split; [reflexivity|].
  intros [Hpos Hlen]. rewrite Hsh in Hpos, Hlen.
  apply Forall_cons in Hpos as [Hd0 Hrest]. rewrite size_cons in Hlen.
  pose proof (size_nonneg rest Hrest).
  split; [done|]. cbn [shape data]. rewrite length_take, length_drop. nia.
Qed.

Lemma wf_nd_head stop a d0 rest :
  wf a → shape a = d0 :: rest →
  wf (nd_head stop a) ∧ shape (nd_head stop a) = slice_len stop d0 :: rest.
Proof.
  intros [Hpos Hlen] Hsh. rewrite Hsh in Hpos, Hlen.
  apply Forall_cons in Hpos as [Hd0 Hrest]. rewrite size_cons in Hlen.
  pose proof (size_nonneg rest Hrest). pose proof (slice_len_bounds stop d0 Hd0).
  unfold nd_head. rewrite Hsh. split; [|done]. split; cbn [shape data].
  - constructor; [lia|done].
  - rewrite length_take, size_cons. nia.
Qed.

(** X8.  The array the last cell prints, [all_average_arr[0, 0, :5, :5]]:
    for a four-dimensional array with at least one module and one pulse it
    is the two-dimensional array of the first (at most) 5 rows and 5 columns
    of module 0, pulse 0, element for element. *)
Theorem X8_printed_corner arr d0 d1 rows cols :
  wf arr → shape arr = [d0; d1; rows; cols] → 1 ≤ d0 → 1 ≤ d1 →
  ∃ corner,
    printed_corner arr = Some corner ∧
    shape corner = [Z.min 5 rows; Z.min 5 cols] ∧
    ∀ r c, 0 ≤ r < Z.min 5 rows → 0 ≤ c < Z.min 5 cols →
      item corner [r; c] = item arr [0; 0; r; c].
Proof.
  intros Hwf Hsh Hd0 Hd1.
  destruct (nd_getitem0_in_bounds arr d0 [d1; rows; cols] 0 Hsh ltac:(lia))
    as (plane & Hplane & Hplane_sh & Hplane_wf).
  destruct (nd_getitem0_in_bounds plane d1 [rows; cols] 0 Hplane_sh ltac:(lia))
    as (image & Himage & Himage_sh & Himage_wf).
  specialize (Himage_wf (Hplane_wf Hwf)).
  destruct (wf_nd_head 5 image rows [cols] Himage_wf Himage_sh)
    as [Hhead_wf Hhead_sh].
  assert (∀ d, slice_len 5 d = Z.min 5 d) as Hslice by done.
  rewrite Hslice in Hhead_sh.
  assert (0 ≤ rows ∧ 0 ≤ cols) as [Hrows Hcols].
  { destruct Himage_wf as [Hpos _]. rewrite Himage_sh in Hpos.
    apply Forall_cons in Hpos as [? Hpos]. by apply Forall_cons in Hpos as [? _]. }
  exists (nd_getitem_axis1 5 (nd_head 5 image)). split_and!.
  - unfold printed_corner, nd_corner. rewrite Hplane. cbn. rewrite Himage. cbn.
    by rewrite Himage_sh.
  - by rewrite (shape_getitem_axis1 _ 5 _ _ _ Hhead_sh), Hslice.
  - intros r c Hr Hc.
    erewrite item_2d;
      [|by rewrite (shape_getitem_axis1 _ 5 _ _ _ Hhead_sh), Hslice|done..].
    pose proof (lookup_getitem_axis1 _ 5 _ _ _ Hhead_wf Hhead_sh r c) as Hget.
    rewrite Hslice in Hget. change (size []) with 1 in Hget.
    replace (Z.to_nat (r * Z.min 5 cols + c))
      with (Z.to_nat (r * (Z.min 5 cols * 1) + c)) by lia.
    rewrite Hget by lia.
    unfold nd_head. rewrite Himage_sh. cbn [data]. rewrite Hslice.
    rewrite lookup_take_lt by (rewrite size_cons; change (size []) with 1; nia).
    rewrite (item_getitem0 arr 0 plane [0; r; c] Hplane).
    rewrite (item_getitem0 plane 0 image [r; c] Himage).
    rewrite (item_2d _ _ _ _ _ Himage_sh) by lia.
    f_equal. lia.
Qed.

Lemma X8_printed_corner_witness :
  ∃ corner,
    printed_corner (full [16; 64; 512; 128] 0) = Some corner ∧
    shape corner = [Z.min 5 512; Z.min 5 128] ∧
    ∀ r c, 0 ≤ r < Z.min 5 512 → 0 ≤ c < Z.min 5 128 →
      item corner [r; c] = item (full [16; 64; 512; 128] 0) [0; 0; r; c].
Proof.
  apply (X8_printed_corner (full [16; 64; 512; 128] 0) 16 64 512 128).
  - apply wf_full. repeat constructor; lia.
  - reflexivity.
  - lia.
  - lia.
Defined.

(** ** Modules do not mix *)

Lemma all_average_arr_getitem0 `{!Session} run s arr s' i :
  run_valid run →
  all_average_arr run s = (inr arr, s') →
  0 ≤ i < 16 →
  ∃ avg,
    fst (average_module i run 64 s) = inr avg ∧
    nd_getitem0 i arr = Some (eval (graph avg)).
Proof.
  intros Hrun Harr Hi.
  unfold all_average_arr, all_average, mod_averages, mbind, M_bind in Harr.
  destruct (for_each _ (range 16) s) as [[e|parts] s1] eqn:Hparts; [done|].
  assert (range 16 ≠ []) as Hne by done.
  destruct (mod_averages_stackable _ _ _ _ _ _ Hne Hparts)
    as (x & parts' & _ & _ & _ & Hstack).
  unfold lift in Harr. rewrite Hstack in Harr.
  unfold timed, compute in Harr. cbn [graph eval] in Harr. injection Harr as <- _.
  destruct (stacked_getitem0 run 64 (range 16) s parts s1 _ (Z.to_nat i) i
              Hrun Hparts Hstack) as (avg & _ & Havg & Hitem).
  { unfold range. rewrite lookup_seqZ_lt by lia. f_equal. lia. }
  exists avg. split; [done|]. by rewrite Z2Nat.id in Hitem by lia.
Qed.

(** X11.  Each module's part of the result depends on that module's array
    only: when the three cells succeed on two runs that deliver the same
    lazy array for module [i], the two results agree at index [i], whatever
    the other modules hold. *)
Theorem X11_modules_do_not_mix `{!Session}
    run1 run2 s1 s2 arr1 arr2 s1' s2' i :
  run_valid run1 → run_valid run2 →
  all_average_arr run1 s1 = (inr arr1, s1') →
  all_average_arr run2 s2 = (inr arr2, s2') →
  0 ≤ i < 16 →
  get_dask_array run1 (module_source i) "image.data"
  = get_dask_array run2 (module_source i) "image.data" →
  nd_getitem0 i arr1 = nd_getitem0 i arr2 ∧ is_Some (nd_getitem0 i arr1).
Proof.
  intros Hrun1 Hrun2 Harr1 Harr2 Hi Hsame.
  destruct (all_average_arr_getitem0 _ _ _ _ _ Hrun1 Harr1 Hi)
    as (avg1 & Havg1 & ->).
  destruct (all_average_arr_getitem0 _ _ _ _ _ Hrun2 Harr2 Hi)
    as (avg2 & Havg2 & ->).
  split; [|done]. do 3 f_equal.
  destruct (average_module_inr _ _ _ _ _ Havg1)
    as (c1 & raw1 & d0 & d1 & rest & trains1 & _ & Hraw1 & Hsh1 & Ht1 & ->).
  destruct (average_module_inr _ _ _ _ _ Havg2)
    as (c2 & raw2 & d0' & d1' & rest' & trains2 & _ & Hraw2 & Hsh2 & Ht2 & ->).
  rewrite Hsame, Hraw2 in Hraw1. injection Hraw1 as <-.
  rewrite Hsh2 in Hsh1. injection Hsh1 as <- <- <-.
  rewrite Ht2 in Ht1. by injection Ht1 as <-.
Qed.

Lemma X11_modules_do_not_mix_witness :
  nd_getitem0 0 (eval (graph recorded_stacked))
  = nd_getitem0 0 (eval (graph replaced_stacked)) ∧
  is_Some (nd_getitem0 0 (eval (graph recorded_stacked))).
Proof.
  apply (X11_modules_do_not_mix recorded_run replaced_run start start
           (eval (graph recorded_stacked)) (eval (graph replaced_stacked))
           (timing_reported recorded_state
              {| console := console recorded_state; evaluations := 1 |})
           (timing_reported recorded_state
              {| console := console recorded_state; evaluations := 1 |}) 0).
  - apply recorded_run_valid.
  - apply run_of_modules_valid. apply Forall_cons_2.
    + apply wf_full. repeat constructor; lia.
    + apply Forall_replicate, wf_full. repeat constructor; lia.
  - reflexivity.
  - unfold all_average_arr, mbind, M_bind.
    assert (all_average replaced_run start = (inr replaced_stacked, recorded_state))
      as -> by reflexivity.
    reflexivity.
  - lia.
  - transitivity (inr (da_from_array (full [191872; 2; 512; 128] 0))
                  : exn + darray); reflexivity.
Defined.
